(** * spf2acl: the SPF record model of [spf.py]

    A shallow embedding of [src/spf2acl/spf.py]: the record tree
    ([SPF], [Directive], the mechanisms and modifiers), the domain-spec
    sequence ([Domain]) with its literal rendering and its expansion, the
    macro engine ([Macro]) and the query context ([Query]).

    Python strings are modelled by [string], one character of the [string]
    for one character of the Python text (a code point below 256), so that
    [String.length] is what [len] counts.  In the ASCII texts SPF records
    and domain names are made of, a character is one octet; a character
    from 128 on takes two octets in UTF-8 ([Spec.octets]).  Python
    exceptions are modelled by the error monad [Py.result]. *)

From Stdlib Require Import String Ascii List ZArith Lia Bool Arith.
From Stdlib Require Import DecimalString.
From Equations Require Import Equations.
Import ListNotations.

Open Scope string_scope.

(** ** Python primitives used by [spf.py] *)

Module Py.

(** The exceptions the module can raise, by their Python class. *)
Inductive exn : Set :=
| ValueError
| TypeError
| IndexError
| AddrFormatError.

Inductive result (A : Type) : Type :=
| Ok (a : A)
| Raise (e : exn).
Arguments Ok {A} a.
Arguments Raise {A} e.

Definition bind {A B : Type} (c : result A) (k : A -> result B) : result B :=
  match c with
  | Ok a => k a
  | Raise e => Raise e
  end.

(** [sep.join(parts)] *)
Definition join (sep : string) (parts : list string) : string :=
  String.concat sep parts.

(** [c in s], for a one-character [c] *)
Fixpoint contains (c : ascii) (s : string) : bool :=
  match s with
  | EmptyString => false
  | String a s' => if Ascii.eqb a c then true else contains c s'
  end.

(** [s.split(sep)], for a one-character separator: the pieces between
    the occurrences of [sep], empty pieces included. *)
Fixpoint split_from (sep : ascii) (cur s : string) : list string :=
  match s with
  | EmptyString => [cur]
  | String a s' =>
      if Ascii.eqb a sep then cur :: split_from sep "" s'
      else split_from sep (cur ++ String a "") s'
  end.

Definition split (sep : ascii) (s : string) : list string :=
  split_from sep "" s.

(** [l[i]], which raises [IndexError] out of range ([i] not negative). *)
Definition item {A : Type} (l : list A) (i : nat) : result A :=
  match nth_error l i with
  | Some a => Ok a
  | None => Raise IndexError
  end.

(** [s.index(c)], for a one-character [c]: the offset of the first
    occurrence, [None] where Python raises [ValueError]. *)
Fixpoint index (c : ascii) (s : string) : option nat :=
  match s with
  | EmptyString => None
  | String a s' =>
      if Ascii.eqb a c then Some 0
      else match index c s' with
           | Some i => Some (S i)
           | None => None
           end
  end.

(** [s[n:]], [n] not negative. *)
Fixpoint slice_from (n : nat) (s : string) : string :=
  match n, s with
  | 0, _ => s
  | S _, EmptyString => EmptyString
  | S n', String _ s' => slice_from n' s'
  end.

(** [l[start:]] on a list, with Python's rule for a negative [start]
    (counted from the end) and its clamping to the list's bounds. *)
Definition list_slice_from {A : Type} (start : Z) (l : list A) : list A :=
  let len := Z.of_nat (List.length l) in
  let lo := if (start <? 0)%Z then Z.max 0 (start + len) else Z.min start len in
  skipn (Z.to_nat lo) l.

(** [s.replace(old, new)]: the occurrences of [old] are found from left
    to right and do not overlap.  [skip] counts the characters of a match
    still to be dropped.  An empty [old] matches before every character
    and at the end. *)
Fixpoint replace_go (old new : string) (skip : nat) (s : string) : string :=
  match s with
  | EmptyString => EmptyString
  | String a s' =>
      match skip with
      | S k => replace_go old new k s'
      | 0 =>
          if String.prefix old s
          then new ++ replace_go old new (String.length old - 1) s'
          else String a (replace_go old new 0 s')
      end
  end.

Fixpoint intersperse (new s : string) : string :=
  match s with
  | EmptyString => new
  | String a s' => new ++ String a (intersperse new s')
  end.

Definition replace (old new s : string) : string :=
  match old with
  | EmptyString => intersperse new s
  | String _ _ => replace_go old new 0 s
  end.

(** ["%d" % n] *)
Definition fmt_d (n : Z) : string :=
  NilZero.string_of_int (Z.to_int n).

(** The characters of a string, as iterating over it yields them. *)
Definition chars (s : string) : list string :=
  map (fun a => String a "") (list_ascii_of_string s).

(** [re.split("|".join(map(re.escape, delims)), s)] for a non-empty
    [delims]: the pattern is the alternation of the characters of [delims],
    each escaped and so matched literally.  A match is one character long;
    the text between two matches is a piece, empty pieces included. *)
Definition alt_matches (delims : string) (a : ascii) : bool :=
  existsb (Ascii.eqb a) (list_ascii_of_string delims).

Fixpoint re_split_from (delims : string) (cur s : string) : list string :=
  match s with
  | EmptyString => [cur]
  | String a s' =>
      if alt_matches delims a then cur :: re_split_from delims "" s'
      else re_split_from delims (cur ++ String a "") s'
  end.

Definition re_split (delims : string) (s : string) : list string :=
  re_split_from delims "" s.

End Py.

Notation "x <- c ;; k" := (Py.bind c (fun x => k))
  (at level 61, c at next level, right associativity).

(** ** The part of the [netaddr] library the module relies on

    [spf.py] imports [netaddr] for IP addresses and networks.  The
    definitions below follow that library's [IPAddress] and [IPNetwork]:
    an address is a version and an unsigned integer, a network an address
    and a prefix length.  Parsing of address literals is left out: a value
    is given by its parsed fields. *)

Module Netaddr.

Open Scope Z_scope.

Inductive ipversion : Set := V4 | V6.

Definition version_number (v : ipversion) : Z :=
  match v with V4 => 4 | V6 => 6 end.

(** [_module.width] and [_module.max_int] *)
Definition width (v : ipversion) : Z :=
  match v with V4 => 32 | V6 => 128 end.

Definition max_int (v : ipversion) : Z := 2 ^ width v - 1.

Record IPAddress : Set := mkIPAddress {
  version : ipversion;
  value : Z
}.

Record IPNetwork : Set := mkIPNetwork {
  net_version : ipversion;
  net_value : Z;
  prefixlen : Z
}.

(** [IPAddress(addr)]: the integer must fit the version's width. *)
Definition new_IPAddress (v : ipversion) (n : Z) : Py.result IPAddress :=
  if (0 <=? n) && (n <=? max_int v) then Py.Ok (mkIPAddress v n)
  else Py.Raise Py.AddrFormatError.

(** [IPNetwork(addr)]: the address is kept as given, host bits included;
    the prefix length must lie between 0 and the width. *)
Definition new_IPNetwork (v : ipversion) (n : Z) (p : Z) : Py.result IPNetwork :=
  if (0 <=? n) && (n <=? max_int v) && (0 <=? p) && (p <=? width v)
  then Py.Ok (mkIPNetwork v n p)
  else Py.Raise Py.AddrFormatError.

(** [IPNetwork.netmask], as an integer: [max_int ^ hostmask]. *)
Definition hostmask (n : IPNetwork) : Z :=
  Z.shiftl 1 (width (net_version n) - prefixlen n) - 1.

Definition netmask (n : IPNetwork) : Z :=
  Z.lxor (max_int (net_version n)) (hostmask n).

(** [IPNetwork.cidr]: the same prefix length over the address with its
    host bits cleared. *)
Definition cidr (n : IPNetwork) : IPNetwork :=
  mkIPNetwork (net_version n) (Z.land (net_value n) (netmask n)) (prefixlen n).

(** [IPNetwork.ip] *)
Definition ip (n : IPNetwork) : IPAddress :=
  mkIPAddress (net_version n) (net_value n).

(** [IPAddress.is_netmask]: the complement of the value, plus one, is a
    power of two. *)
Definition is_netmask (a : IPAddress) : bool :=
  let int_val := Z.lxor (value a) (max_int (version a)) + 1 in
  Z.land int_val (int_val - 1) =? 0.

(** The loop of [netmask_bits]: the number of zero bits below the lowest
    set bit. *)
Fixpoint trailing_zeros (p : positive) : Z :=
  match p with
  | xO p' => 1 + trailing_zeros p'
  | _ => 0
  end.

(** [IPAddress.netmask_bits]: for an address that is a valid netmask, the
    number of its leading one bits; for any other address, the width of
    its version. *)
Definition netmask_bits (a : IPAddress) : Z :=
  if negb (is_netmask a) then width (version a)
  else match value a with
       | Zpos p => width (version a) - trailing_zeros p
       | _ => 0
       end.

(** *** Address text *)

(** [str] of an IPv4 address: the four octets in decimal. *)
Definition octet (n : Z) (i : Z) : Z :=
  Z.land (Z.shiftr n (8 * (3 - i))) 255.

Definition ipv4_str (n : Z) : string :=
  Py.join "." (map (fun i => Py.fmt_d (octet n i)) [0; 1; 2; 3]).

Definition hex_digit (d : Z) : ascii :=
  match String.get (Z.to_nat d) "0123456789abcdef" with
  | Some a => a
  | None => "0"%char
  end.

Definition nibble (w : Z) (i : Z) : Z := Z.land (Z.shiftr w (4 * i)) 15.

(** ["%.4x" % w] for a 16-bit word *)
Definition fmt_04x (w : Z) : string :=
  String (hex_digit (nibble w 3)) (String (hex_digit (nibble w 2))
    (String (hex_digit (nibble w 1)) (String (hex_digit (nibble w 0)) ""))).

Fixpoint strip_zeros (s : string) : string :=
  match s with
  | String a r =>
      match r with
      | EmptyString => s
      | String _ _ => if Ascii.eqb a "0" then strip_zeros r else s
      end
  | EmptyString => s
  end.

(** ["%x" % w] for a 16-bit word *)
Definition fmt_x (w : Z) : string := strip_zeros (fmt_04x w).

(** The eight 16-bit words of an IPv6 address, most significant first. *)
Definition word (n : Z) (i : Z) : Z :=
  Z.land (Z.shiftr n (16 * (7 - i))) 65535.

Definition words (n : Z) : list Z :=
  map (word n) [0; 1; 2; 3; 4; 5; 6; 7].

(** [format(ipv6_verbose)]: all eight words, four digits each. *)
Definition ipv6_verbose (n : Z) : string :=
  Py.join ":" (map fmt_04x (words n)).

(** [str] of an IPv6 address (the [ipv6_compact] dialect), which the
    library obtains from the platform's [inet_ntop]: the longest run of
    two or more zero words, the leftmost of equal ones, is written ["::"];
    an address with an embedded IPv4 address ends in dotted decimal. *)
Record run : Set := mkRun { base : Z; len : Z }.

Definition better (best : option run) (cur : run) : option run :=
  match best with
  | None => Some cur
  | Some b => if len b <? len cur then Some cur else best
  end.

Fixpoint scan_runs (ws : list Z) (i : Z) (best cur : option run) : option run :=
  match ws with
  | [] => match cur with Some c => better best c | None => best end
  | w :: ws' =>
      if w =? 0 then
        scan_runs ws' (i + 1) best
          (match cur with
           | None => Some (mkRun i 1)
           | Some c => Some (mkRun (base c) (len c + 1))
           end)
      else
        scan_runs ws' (i + 1)
          (match cur with Some c => better best c | None => best end) None
  end.

Definition best_run (ws : list Z) : option run :=
  match scan_runs ws 0 None None with
  | Some b => if len b <? 2 then None else Some b
  | None => None
  end.

Definition in_run (best : option run) (i : Z) : bool :=
  match best with
  | Some b => (base b <=? i) && (i <? base b + len b)
  | None => false
  end.

Definition embeds_ipv4 (best : option run) (n : Z) : bool :=
  match best with
  | Some b => (base b =? 0) && ((len b =? 6) || ((len b =? 5) && (word n 5 =? 65535)))
  | None => false
  end.

Fixpoint ntop6_words (n : Z) (best : option run) (ws : list Z) (i : Z) : string :=
  match ws with
  | [] => ""
  | w :: ws' =>
      if in_run best i then
        (if match best with Some b => i =? base b | None => false end
         then ":" else "") ++ ntop6_words n best ws' (i + 1)
      else
        (if i =? 0 then "" else ":") ++
        (if (i =? 6) && embeds_ipv4 best n
         then ipv4_str (Z.land n 4294967295)
         else fmt_x w ++ ntop6_words n best ws' (i + 1))
  end.

Definition ipv6_str (n : Z) : string :=
  let best := best_run (words n) in
  ntop6_words n best (words n) 0 ++
  match best with
  | Some b => if base b + len b =? 8 then ":" else ""
  | None => ""
  end.

(** [str(addr)] *)
Definition IPAddress_str (a : IPAddress) : string :=
  match version a with
  | V4 => ipv4_str (value a)
  | V6 => ipv6_str (value a)
  end.

Definition ipv4 (a b c d : Z) : Z :=
  Z.lor (Z.shiftl a 24) (Z.lor (Z.shiftl b 16) (Z.lor (Z.shiftl c 8) d)).

(** [IPAddress("127.0.0.1")] *)
Definition loopback : IPAddress := mkIPAddress V4 (ipv4 127 0 0 1).

End Netaddr.

(** ** [class Query] *)

Module Query.

(** The private fields [__sender], [__domain] (where [None] is Python's
    [None]) and [__ip]. *)
Record t : Set := mk {
  _sender : string;
  _domain : option string;
  _ip : Netaddr.IPAddress
}.

(** [Query(sender, domain=None, ip=IPAddress("127.0.0.1"))]: an argument
    left out is [None] here. *)
Definition init (sender : string) (domain : option string)
    (ip : option Netaddr.IPAddress) : t :=
  mk sender domain
     (match ip with Some a => a | None => Netaddr.loopback end).

(** The property [sender] *)
Definition sender (self : t) : string :=
  let result := _sender self in
  if negb (Py.contains "@" result) then "postmaster@" ++ result
  else result.

(** The property [domain]: [self.__domain or self.sender.split("@")[1]];
    [None] and the empty string are the false values of [or]. *)
Definition domain (self : t) : Py.result string :=
  match _domain self with
  | Some (String a d) => Py.Ok (String a d)
  | _ => Py.item (Py.split "@" (sender self)) 1
  end.

(** The property [ip] *)
Definition ip (self : t) : Netaddr.IPAddress := _ip self.

End Query.

(** ** [class Macro] *)

Module Macro.

(** [Macro.Type] *)
Inductive Type_ : Set :=
| SENDER
| SENDER_LOCAL
| SENDER_DOMAIN
| DOMAIN
| IP
| IP_DOMAIN
| IP_VERSION
| HELO.

Definition value (ty : Type_) : string :=
  match ty with
  | SENDER => "s"
  | SENDER_LOCAL => "l"
  | SENDER_DOMAIN => "o"
  | DOMAIN => "d"
  | IP => "i"
  | IP_DOMAIN => "p"
  | IP_VERSION => "v"
  | HELO => "h"
  end.

Definition members : list Type_ :=
  [SENDER; SENDER_LOCAL; SENDER_DOMAIN; DOMAIN; IP; IP_DOMAIN; IP_VERSION; HELO].

(** [Macro.Type(token)]: the member whose value is [token]; the enum
    raises [ValueError] when there is none. *)
Definition Type_of (token : string) : Py.result Type_ :=
  match find (fun ty => String.eqb (value ty) token) members with
  | Some ty => Py.Ok ty
  | None => Py.Raise Py.ValueError
  end.

Record t : Set := mk {
  type : Type_;
  length : option Z;
  reverse : bool;
  delimiter : string
}.

(** [Macro(_type, length=None, reverse=False, delimiter=".")] *)
Definition init (_type : string) (length : option Z) (reverse : bool)
    (delimiter : string) : Py.result t :=
  ty <- Type_of _type ;;
  Py.Ok (mk ty length reverse
            (match delimiter with EmptyString => "." | _ => delimiter end)).

(** The truth value of [self.length]: [None] and [0] are false. *)
Definition length_true (m : t) : option Z :=
  match length m with
  | Some n => if (n =? 0)%Z then None else Some n
  | None => None
  end.

(** [__str__] *)
Definition str (self : t) : string :=
  let result := value (type self) in
  let result :=
    match length_true self with
    | Some n => result ++ Py.fmt_d n
    | None => result
    end in
  let result := if reverse self then result ++ "r" else result in
  let result :=
    if negb (String.eqb (delimiter self) ".") then result ++ delimiter self
    else result in
  "%{" ++ result ++ "}".

(** The first part of [expand]: the chain of tests on [self.type], which
    leaves [result] at [None] for the types no branch handles. *)
Definition raw (self : t) (query : Query.t) : Py.result (option string) :=
  match type self with
  | SENDER => Py.Ok (Some (Query.sender query))
  | SENDER_LOCAL =>
      r <- Py.item (Py.split "@" (Query.sender query)) 0 ;; Py.Ok (Some r)
  | SENDER_DOMAIN =>
      r <- Py.item (Py.split "@" (Query.sender query)) 1 ;; Py.Ok (Some r)
  | DOMAIN =>
      r <- Query.domain query ;; Py.Ok (Some r)
  | IP =>
      match Netaddr.version (Query.ip query) with
      | Netaddr.V6 =>
          Py.Ok (Some (Py.join "."
            (Py.chars (Py.replace ":" ""
               (Netaddr.ipv6_verbose (Netaddr.value (Query.ip query)))))))
      | Netaddr.V4 => Py.Ok (Some (Netaddr.IPAddress_str (Query.ip query)))
      end
  | IP_VERSION =>
      match Netaddr.version (Query.ip query) with
      | Netaddr.V6 => Py.Ok (Some "ip6")
      | Netaddr.V4 => Py.Ok (Some "in-addr")
      end
  | IP_DOMAIN | HELO => Py.Ok None
  end.

(** The second part of [expand], from the [re.split] on: [re.split]
    raises [TypeError] on [None]. *)
Definition finish (self : t) (result : option string) : Py.result string :=
  match result with
  | None => Py.Raise Py.TypeError
  | Some result =>
      let result := Py.re_split (delimiter self) result in
      let result := if reverse self then rev result else result in
      let result :=
        match length_true self with
        | Some n => Py.list_slice_from (- n) result
        | None => result
        end in
      Py.Ok (Py.join "." result)
  end.

Definition expand (self : t) (query : Query.t) : Py.result string :=
  result <- raw self query ;; finish self result.

End Macro.

(** ** [class Domain] *)

Module Domain.

(** An element of the sequence: a [str], or any other object, which is
    taken to be a [Macro]. *)
Inductive fragment : Set :=
| Text (s : string)
| Placeholder (m : Macro.t).

Definition t : Set := list fragment.

(** The rewriting of a text element in [__str__] *)
Definition escape (i : string) : string :=
  Py.replace " " "%_" (Py.replace "%%20" "%-" (Py.replace "%" "%%" i)).

(** [__str__] *)
Definition str (self : t) : string :=
  fold_left
    (fun result i =>
       match i with
       | Text s => result ++ escape s
       | Placeholder m => result ++ Macro.str m
       end)
    self "".

(** The [while] loop of [expand]; [str.index] raises [ValueError] when
    no ["."] is left. *)
Equations? strip (result : string) : Py.result string
  by wf (String.length result) lt :=
  strip result with le_lt_dec (String.length result) 253 => {
    | left _ := Py.Ok result
    | right _ with Py.index "." result => {
        | Some i := strip (Py.slice_from (i + 1) result)
        | None := Py.Raise Py.ValueError } }.
Proof.
  clear strip. rewrite Nat.add_1_r.
  destruct result as [|a r]; simpl in *; [lia|].
  clear. revert r. induction i as [|i IH]; intros r; simpl; [lia|].
  destruct r as [|b r]; simpl; [lia|].
  specialize (IH r). lia.
Qed.

(** [expand]: the body of the [for] loop, which runs while nothing was
    raised, and the loop. *)
Definition append_fragment (query : Query.t) (acc : Py.result string)
    (i : fragment) : Py.result string :=
  result <- acc ;;
  match i with
  | Text s => Py.Ok (result ++ s)
  | Placeholder m => piece <- Macro.expand m query ;; Py.Ok (result ++ piece)
  end.

Definition concat (self : t) (query : Query.t) : Py.result string :=
  fold_left (append_fragment query) self (Py.Ok "").

Definition expand (self : t) (query : Query.t) : Py.result string :=
  result <- concat self query ;; strip result.

End Domain.

(** ** The mechanisms *)

(** The [domain] argument of a mechanism or modifier is formatted with
    ["%s"], its [str]: a plain [str] stands for itself, a [Domain] for its
    literal rendering.  Only the empty [str] is a false value: [Domain]
    defines neither [__bool__] nor [__len__]. *)
Inductive domain_arg : Set :=
| Str (s : string)
| Seq (d : Domain.t).

Definition domain_arg_str (d : domain_arg) : string :=
  match d with
  | Str s => s
  | Seq d => Domain.str d
  end.

Definition domain_arg_true (d : domain_arg) : bool :=
  match d with
  | Str EmptyString => false
  | _ => true
  end.

(** [class __DomainMechanism] *)
Module DomainMechanism.

Definition _str (domain : domain_arg) : string :=
  ":" ++ domain_arg_str domain.

End DomainMechanism.

(** [class __Cidr] *)
Module Cidr.

Record t : Set := mk {
  domain : option domain_arg;
  ipv4_prefix_length : Z;
  ipv6_prefix_length : Z
}.

(** [__Cidr(domain=None, ipv4_prefix_length=32, ipv6_prefix_length=128)]:
    an argument left out is [None] here. *)
Definition init (domain : option domain_arg)
    (ipv4_prefix_length ipv6_prefix_length : option Z) : t :=
  mk domain
     (match ipv4_prefix_length with Some n => n | None => 32%Z end)
     (match ipv6_prefix_length with Some n => n | None => 128%Z end).

Definition _str (self : t) : string :=
  let result := "" in
  let result :=
    match domain self with
    | Some d =>
        if domain_arg_true d then result ++ ":" ++ domain_arg_str d
        else result
    | None => result
    end in
  let result :=
    if negb (ipv4_prefix_length self =? 32)%Z
    then result ++ "/" ++ Py.fmt_d (ipv4_prefix_length self)
    else result in
  let result :=
    if negb (ipv6_prefix_length self =? 128)%Z
    then result ++ "//" ++ Py.fmt_d (ipv6_prefix_length self)
    else result in
  result.

End Cidr.

(** [class IPNetwork] *)
Module IPNetwork.

Record t : Set := mk { _network : Netaddr.IPNetwork }.

(** [IPNetwork(network)]: [netaddr.IPNetwork] raises on a value that
    is not a network. *)
Definition init (v : Netaddr.ipversion) (n p : Z) : Py.result t :=
  net <- Netaddr.new_IPNetwork v n p ;; Py.Ok (mk net).

Definition network (self : t) : Netaddr.IPNetwork :=
  Netaddr.cidr (_network self).

Definition version (self : t) : Z :=
  Netaddr.version_number (Netaddr.net_version (network self)).

Definition address (self : t) : Netaddr.IPAddress :=
  Netaddr.ip (network self).

Definition prefix_length (self : t) : Z :=
  Netaddr.prefixlen (network self).

(** [__str__] *)
Definition str (self : t) : string :=
  let suffix :=
    if negb (prefix_length self =? Netaddr.netmask_bits (address self))%Z
    then "/" ++ Py.fmt_d (prefix_length self)
    else "" in
  "ip" ++ Py.fmt_d (version self) ++ ":"
       ++ Netaddr.IPAddress_str (address self) ++ suffix.

End IPNetwork.

Inductive Mechanism : Set :=
| All
| Include (domain : domain_arg)
| Exists (domain : domain_arg)
| A (c : Cidr.t)
| MX (c : Cidr.t)
| IPNet (n : IPNetwork.t).

(** [__str__] of each mechanism class *)
Definition Mechanism_str (m : Mechanism) : string :=
  match m with
  | All => "all"
  | Include d => "include" ++ DomainMechanism._str d
  | Exists d => "exists" ++ DomainMechanism._str d
  | A c => "a" ++ Cidr._str c
  | MX c => "mx" ++ Cidr._str c
  | IPNet n => IPNetwork.str n
  end.

(** ** The modifiers *)

Inductive Modifier : Set :=
| Redirect (domain : domain_arg)
| Exp (domain : domain_arg).

Definition Modifier__str (domain : domain_arg) : string :=
  "=" ++ domain_arg_str domain.

Definition Modifier_str (m : Modifier) : string :=
  match m with
  | Redirect d => "redirect" ++ Modifier__str d
  | Exp d => "exp" ++ Modifier__str d
  end.

(** ** [class Qualifier] and [class Directive] *)

Inductive Qualifier : Set := PASS | FAIL | NEUTRAL | SOFT_FAIL.

Definition Qualifier_value (q : Qualifier) : string :=
  match q with
  | PASS => "+"
  | FAIL => "-"
  | NEUTRAL => "?"
  | SOFT_FAIL => "~"
  end.

Module Directive.

Record t : Set := mk {
  mechanism : Mechanism;
  qualifier : Qualifier
}.

Definition str (self : t) : string :=
  let result :=
    match qualifier self with
    | PASS => ""
    | q => Qualifier_value q
    end in
  result ++ Mechanism_str (mechanism self).

End Directive.

(** ** [class SPF] *)

Module SPF.

(** A term is any object with a [str]: a directive or a modifier. *)
Inductive term : Set :=
| Dir (d : Directive.t)
| Mod (m : Modifier).

Definition term_str (x : term) : string :=
  match x with
  | Dir d => Directive.str d
  | Mod m => Modifier_str m
  end.

Definition t : Set := list term.

Definition version : string := "spf1".

(** [__str__] *)
Definition str (self : t) : string :=
  let result := "v=" ++ version in
  match self with
  | [] => result
  | _ :: _ => result ++ " " ++ Py.join " " (map term_str self)
  end.

End SPF.

(** ** The operations as the specification words them

    Second definitions, written from the specification's sentences, with
    which the definitions above are compared. *)

Module Spec.

(** A character of the delimiter set. *)
Definition separates (delimiter : string) (a : ascii) : bool :=
  if in_dec ascii_dec a (list_ascii_of_string delimiter) then true else false.

(** The labels of [raw]: the runs of characters between separators. *)
Fixpoint labels (delimiter raw : string) : list string :=
  match raw with
  | EmptyString => [""]
  | String a raw' =>
      if separates delimiter a then "" :: labels delimiter raw'
      else match labels delimiter raw' with
           | l :: ls => String a l :: ls
           | [] => [String a ""]
           end
  end.

(** The labels written back with the separators between them. *)
Fixpoint weave (ls : list string) (seps : list ascii) : string :=
  match ls, seps with
  | l :: ls', a :: seps' => l ++ String a (weave ls' seps')
  | l :: _, [] => l
  | [], _ => ""
  end.

Definition free_of (delimiter : string) (l : string) : Prop :=
  forall a, In a (list_ascii_of_string l) -> separates delimiter a = false.

(** The last [n] elements of a list. *)
Definition keep_last {A : Type} (n : nat) (l : list A) : list A :=
  rev (firstn n (rev l)).

(** Steps 2 to 5 of the macro engine, for a positive [length]. *)
Definition expand_steps (delimiter : string) (reverse : bool)
    (length : option positive) (raw : string) : string :=
  let ls := labels delimiter raw in
  let ls := if reverse then rev ls else ls in
  let ls :=
    match length with
    | Some n => keep_last (Pos.to_nat n) ls
    | None => ls
    end in
  String.concat "." ls.

(** The concatenation of a domain-spec's fragments: literal text as it
    is, a macro by its expansion. *)
Fixpoint expansion (d : Domain.t) (query : Query.t) : Py.result string :=
  match d with
  | [] => Py.Ok ""
  | Domain.Text s :: d' =>
      rest <- expansion d' query ;; Py.Ok (s ++ rest)
  | Domain.Placeholder m :: d' =>
      piece <- Macro.expand m query ;;
      rest <- expansion d' query ;;
      Py.Ok (piece ++ rest)
  end.

(** One stripping of the leftmost label of a text over 253 characters: the
    text up to and including the first ["."] goes. *)
Definition strips (s s' : string) : Prop :=
  253 < String.length s /\
  exists l, Py.contains "." l = false /\ s = l ++ "." ++ s'.

(** Zero or more strippings. *)
Inductive strips_to : string -> string -> Prop :=
| strips_done s : strips_to s s
| strips_more s s' s'' : strips s s' -> strips_to s' s'' -> strips_to s s''.

(** [r] is [full] without some of its leading labels. *)
Definition label_suffix (r full : string) : Prop :=
  exists pre, full = pre ++ r /\ (pre = "" \/ exists p, pre = p ++ ".").

(** The escaping of a text fragment character by character: a percent
    sign doubled, a space as ["%_"], nothing else touched. *)
Fixpoint escape_chars (s : string) : string :=
  match s with
  | EmptyString => EmptyString
  | String a s' =>
      if Ascii.eqb a "%" then "%%" ++ escape_chars s'
      else if Ascii.eqb a " " then "%_" ++ escape_chars s'
      else String a (escape_chars s')
  end.

(** The escaping in one pass from left to right, in which ["%20"] is
    one token, written ["%-"]. *)
Fixpoint escape_scan (s : string) : string :=
  match s with
  | EmptyString => EmptyString
  | String a s' =>
      if Ascii.eqb a "%" then
        match s' with
        | String b (String c s'') =>
            if Ascii.eqb b "2" && Ascii.eqb c "0" then "%-" ++ escape_scan s''
            else "%%" ++ escape_scan s'
        | _ => "%%" ++ escape_scan s'
        end
      else if Ascii.eqb a " " then "%_" ++ escape_scan s'
      else String a (escape_scan s')
  end.

(** A fragment in the literal rendering. *)
Definition fragment_str (escape : string -> string) (i : Domain.fragment) : string :=
  match i with
  | Domain.Text s => escape s
  | Domain.Placeholder m => Macro.str m
  end.

(** The three optional parts of an [a] or [mx] mechanism.  The domain part
    is [":"] and the domain: a non-empty text as it is, a domain-spec in its
    literal rendering; there is none for no domain and for the empty
    text. *)
Definition Cidr_domain_part (c : Cidr.t) : string :=
  match Cidr.domain c with
  | Some (Str (String a s)) => ":" ++ String a s
  | Some (Seq d) => ":" ++ Domain.str d
  | Some (Str EmptyString) => ""
  | None => ""
  end.

Definition Cidr_ipv4_part (c : Cidr.t) : string :=
  if (Cidr.ipv4_prefix_length c =? 32)%Z then ""
  else "/" ++ Py.fmt_d (Cidr.ipv4_prefix_length c).

Definition Cidr_ipv6_part (c : Cidr.t) : string :=
  if (Cidr.ipv6_prefix_length c =? 128)%Z then ""
  else "//" ++ Py.fmt_d (Cidr.ipv6_prefix_length c).

(** The octets of a text in UTF-8: one for a character below 128, two
    for a character from 128 to 255. *)
Definition utf8_width (a : ascii) : nat :=
  if (nat_of_ascii a <? 128)%nat then 1 else 2.

Fixpoint octets (s : string) : nat :=
  match s with
  | EmptyString => 0
  | String a s' => utf8_width a + octets s'
  end.

(** A text of ASCII characters only. *)
Definition ascii_only (s : string) : Prop :=
  forall a, In a (list_ascii_of_string s) -> nat_of_ascii a < 128.

End Spec.

(** ** Sample values *)

Module Sample.

(** [Query("strong-bad@email.example.com")] *)
Definition query : Query.t :=
  Query.init "strong-bad@email.example.com" None None.

(** The query of the same sender for the domain ["email.example.com"]. *)
Definition query_for_domain : Query.t :=
  Query.init "strong-bad@email.example.com" (Some "email.example.com") None.

(** A macro of type Domain, reversed, of length 2, delimiter ["."]. *)
Definition macro_d2r : Macro.t := Macro.mk Macro.DOMAIN (Some 2%Z) true ".".

Definition label60 : string :=
  "aaaaaaaaaabbbbbbbbbbccccccccccddddddddddeeeeeeeeeeffffffffff".

(** A domain-spec of five labels of 60 characters and the sender's domain. *)
Definition long_domain : Domain.t :=
  [Domain.Text (label60 ++ "."); Domain.Text (label60 ++ ".");
   Domain.Text (label60 ++ "."); Domain.Text (label60 ++ ".");
   Domain.Text (label60 ++ "."); Domain.Placeholder (Macro.mk Macro.SENDER_DOMAIN None false ".")].

(** What the cap leaves of its expansion. *)
Definition capped : string :=
  label60 ++ "." ++ label60 ++ "." ++ label60 ++ "." ++ "email.example.com".

(** A macro of type Helo and a domain-spec that holds it. *)
Definition macro_h : Macro.t := Macro.mk Macro.HELO None false ".".

Definition helo_domain : Domain.t :=
  [Domain.Text "_spf."; Domain.Placeholder macro_h; Domain.Text ".example.com"].

(** The double quote character. *)
Definition dquote : ascii := ascii_of_nat 34.

(** The address at [example.com] whose local part is the quoted text
    [a@b], with its two quotes. *)
Definition quoted_sender : string :=
  String dquote ("a@b" ++ String dquote "@example.com").

Definition quoted_query : Query.t := Query.init quoted_sender None None.

(** The letter e with an acute accent, U+00E9. *)
Definition e_acute : ascii := ascii_of_nat 233.

Fixpoint replicate (n : nat) (a : ascii) : string :=
  match n with
  | 0 => EmptyString
  | S n' => String a (replicate n' a)
  end.

(** A domain of 142 characters, 130 of them accented. *)
Definition accented_text : string := replicate 130 e_acute ++ ".example.com".

Definition accented_domain : Domain.t := [Domain.Text accented_text].

End Sample.

(** ** Readings of the rendered texts

    Definitions the further properties are stated with. *)

Module Reading.

(** A raw value with every separator written as a dot. *)
Fixpoint dotted (delimiter raw : string) : string :=
  match raw with
  | EmptyString => EmptyString
  | String a raw' =>
      String (if Spec.separates delimiter a then "."%char else a)
             (dotted delimiter raw')
  end.

(** The reading of an escaped text: ["%%"] is a percent sign, ["%_"] a
    space, ["%-"] the text ["%20"]. *)
Fixpoint unescape (s : string) : string :=
  match s with
  | EmptyString => EmptyString
  | String a s' =>
      if Ascii.eqb a "%" then
        match s' with
        | String b s'' =>
            if Ascii.eqb b "%" then "%" ++ unescape s''
            else if Ascii.eqb b "-" then "%20" ++ unescape s''
            else if Ascii.eqb b "_" then " " ++ unescape s''
            else String a (unescape s')
        | EmptyString => "%"
        end
      else String a (unescape s')
  end.

(** The 32 hexadecimal digits of an IPv6 address, one to a label. *)
Definition nibbles (n : Z) : list string :=
  Py.chars (String.concat "" (map Netaddr.fmt_04x (Netaddr.words n))).

(** The four octets of an IPv4 address in decimal. *)
Definition octets (n : Z) : list string :=
  map (fun i => Py.fmt_d (Netaddr.octet n i)) [0%Z; 1%Z; 2%Z; 3%Z].

(** A macro type with no branch in [expand]. *)
Definition unhandled (ty : Macro.Type_) : Prop :=
  ty = Macro.IP_DOMAIN \/ ty = Macro.HELO.

(** [Query("example.com")], a sender without a local part. *)
Definition bare_query : Query.t := Query.init "example.com" None None.

(** [Query("user@example.com", ip=2001:db8::1)] *)
Definition v6_query : Query.t :=
  Query.init "user@example.com" None
    (Some (Netaddr.mkIPAddress Netaddr.V6 42540766411282592856903984951653826561%Z)).

(** [Query("user@example.com", ip=192.0.2.3)] *)
Definition v4_query : Query.t :=
  Query.init "user@example.com" None
    (Some (Netaddr.mkIPAddress Netaddr.V4 (Netaddr.ipv4 192 0 2 3))).

(** A label of 300 characters and a domain-spec that ends in it. *)
Definition label300 : string :=
  Sample.label60 ++ Sample.label60 ++ Sample.label60 ++ Sample.label60
    ++ Sample.label60.

Definition long_label_domain : Domain.t :=
  [Domain.Text "a."; Domain.Text label300].




(** A fragment that brings no space: any text, and a macro whose
    delimiter holds none. *)
Definition spaceless (i : Domain.fragment) : Prop :=
  match i with
  | Domain.Text _ => True
  | Domain.Placeholder m => Py.contains " " (Macro.delimiter m) = false
  end.

(** The record [v=spf1 include:_spf.example.com -all]. *)
Definition record : SPF.t :=
  [SPF.Dir (Directive.mk (Include (Seq [Domain.Text "_spf.example.com"])) PASS);
   SPF.Dir (Directive.mk All FAIL)].

End Reading.

(** * Properties *)

(** ** Strings *)

Lemma append_empty_r (s : string) : s ++ "" = s.
Proof. induction s as [|a s IH]; simpl; [reflexivity | now rewrite IH]. Qed.

Lemma append_assoc (s t u : string) : (s ++ t) ++ u = s ++ t ++ u.
Proof. induction s as [|a s IH]; simpl; [reflexivity | now rewrite IH]. Qed.

Lemma append_length (s t : string) :
  String.length (s ++ t) = String.length s + String.length t.
Proof. induction s as [|a s IH]; simpl; [reflexivity | now rewrite IH]. Qed.

Lemma append_snoc (s t : string) (a : ascii) :
  (s ++ String a "") ++ t = s ++ String a t.
Proof. now rewrite append_assoc. Qed.

(** ** Record rendering *)

(** The terms of a record, each behind one space. *)
Lemma join_spaced (f : SPF.term -> string) (x : SPF.term) (xs : list SPF.term) :
  " " ++ Py.join " " (map f (x :: xs))
  = fold_right (fun t acc => " " ++ f t ++ acc) "" (x :: xs).
Proof.
  revert x. induction xs as [|y ys IH]; intros x.
  - simpl. now rewrite append_empty_r.
  - change (Py.join " " (map f (x :: y :: ys)))
      with (f x ++ " " ++ Py.join " " (map f (y :: ys))).
    change (fold_right (fun t acc => " " ++ f t ++ acc) "" (x :: y :: ys))
      with (" " ++ f x ++ fold_right (fun t acc => " " ++ f t ++ acc) "" (y :: ys)).
    now rewrite <- IH.
Qed.

(** C4. [SPF.str] is ["v=spf1"] and then, for a record that has terms, one
    space and the terms' renderings in list order with one space between two
    of them; the empty record renders as ["v=spf1"] alone.  Put
    differently, every term is written behind one space, so no space
    trails. *)
Theorem SPF_str_terms :
  SPF.str [] = "v=spf1" /\
  (forall (x : SPF.term) (xs : list SPF.term),
      SPF.str (x :: xs)
      = "v=spf1" ++ " " ++ String.concat " " (map SPF.term_str (x :: xs))) /\
  (forall self : SPF.t,
      SPF.str self
      = "v=spf1" ++ fold_right (fun t acc => " " ++ SPF.term_str t ++ acc) "" self).
Proof.
  split; [reflexivity|]. split; [reflexivity|].
  intros [|x xs]; [reflexivity|].
  unfold SPF.str. rewrite <- join_spaced. reflexivity.
Qed.

(** The record of the specification's example. *)
Example SPF_str_example :
  SPF.str [SPF.Dir (Directive.mk (Include (Seq [Domain.Text "_spf.example.com"])) PASS);
           SPF.Dir (Directive.mk All FAIL)]
  = "v=spf1 include:_spf.example.com -all".
Proof. reflexivity. Qed.

(** ** The [a] and [mx] mechanisms *)

Lemma Cidr_str_parts (c : Cidr.t) :
  Cidr._str c = Spec.Cidr_domain_part c ++ Spec.Cidr_ipv4_part c ++ Spec.Cidr_ipv6_part c.
Proof.
  unfold Cidr._str, Spec.Cidr_domain_part, Spec.Cidr_ipv4_part, Spec.Cidr_ipv6_part.
  destruct (Cidr.domain c) as [[[|a s]|d]|];
    destruct (Cidr.ipv4_prefix_length c =? 32)%Z;
    destruct (Cidr.ipv6_prefix_length c =? 128)%Z; simpl;
    rewrite ?append_empty_r, ?append_assoc; reflexivity.
Qed.

(** C5. An [a] or [mx] mechanism renders as its token, then [":"] and the
    domain if there is one (a non-empty text as it is, a domain-spec in its
    literal rendering), then ["/"] and the IPv4 prefix length if it is not
    32, then ["//"] and the IPv6 prefix length if it is not 128, in this
    order.  [A(ipv4_prefix_length=24, ipv6_prefix_length=64)] renders
    ["a/24//64"] and [A()] renders ["a"]; with a domain,
    [A("example.com", 24)] renders ["a:example.com/24"] and [MX] of the
    domain-spec [mail.example.com] with IPv6 prefix length 64 renders
    ["mx:mail.example.com//64"]. *)
Theorem Cidr_mechanism_str :
  (forall c : Cidr.t,
      Mechanism_str (A c)
      = "a" ++ Spec.Cidr_domain_part c ++ Spec.Cidr_ipv4_part c ++ Spec.Cidr_ipv6_part c) /\
  (forall c : Cidr.t,
      Mechanism_str (MX c)
      = "mx" ++ Spec.Cidr_domain_part c ++ Spec.Cidr_ipv4_part c ++ Spec.Cidr_ipv6_part c) /\
  (forall (a : ascii) (s : string) (v4 v6 : Z),
      Mechanism_str (A (Cidr.mk (Some (Str (String a s))) v4 v6))
      = "a" ++ ":" ++ String a s
            ++ (if (v4 =? 32)%Z then "" else "/" ++ Py.fmt_d v4)
            ++ (if (v6 =? 128)%Z then "" else "//" ++ Py.fmt_d v6)) /\
  (forall (d : Domain.t) (v4 v6 : Z),
      Mechanism_str (MX (Cidr.mk (Some (Seq d)) v4 v6))
      = "mx" ++ ":" ++ Domain.str d
             ++ (if (v4 =? 32)%Z then "" else "/" ++ Py.fmt_d v4)
             ++ (if (v6 =? 128)%Z then "" else "//" ++ Py.fmt_d v6)) /\
  Mechanism_str (A (Cidr.init None (Some 24%Z) (Some 64%Z))) = "a/24//64" /\
  Mechanism_str (A (Cidr.init None None None)) = "a" /\
  Mechanism_str (A (Cidr.init (Some (Str "")) None None)) = "a" /\
  Mechanism_str (A (Cidr.init (Some (Str "example.com")) (Some 24%Z) None))
    = "a:example.com/24" /\
  Mechanism_str (MX (Cidr.init (Some (Seq [Domain.Text "mail.example.com"])) None (Some 64%Z)))
    = "mx:mail.example.com//64".
Proof.
  split; [intros c; simpl; now rewrite Cidr_str_parts|].
  split; [intros c; simpl; now rewrite Cidr_str_parts|].
  split; [intros a s v4 v6; cbn [Mechanism_str]; now rewrite Cidr_str_parts|].
  split; [intros d v4 v6; cbn [Mechanism_str]; now rewrite Cidr_str_parts|].
  repeat split.
Qed.

(** ** Splitting into labels *)

Section Labels.

Variable delimiter : string.

Lemma alt_matches_separates (a : ascii) :
  Py.alt_matches delimiter a = Spec.separates delimiter a.
Proof.
  unfold Py.alt_matches, Spec.separates.
  destruct (in_dec ascii_dec a (list_ascii_of_string delimiter)) as [Hin|Hout].
  - apply existsb_exists. exists a. split; [assumption | apply Ascii.eqb_refl].
  - apply not_true_is_false. intros H. apply existsb_exists in H.
    destruct H as [b [Hb Heq]]. apply Ascii.eqb_eq in Heq. subst b. contradiction.
Qed.

Lemma labels_not_nil (raw : string) : Spec.labels delimiter raw <> [].
Proof.
  destruct raw as [|a raw]; simpl; [discriminate|].
  destruct (Spec.separates delimiter a); [discriminate|].
  destruct (Spec.labels delimiter raw); discriminate.
Qed.

(** The scan with an accumulator yields the labels, the text already read
    in front of the first. *)
Lemma re_split_from_labels (raw cur : string) :
  Py.re_split_from delimiter cur raw
  = match Spec.labels delimiter raw with
    | l :: ls => (cur ++ l) :: ls
    | [] => [cur]
    end.
Proof.
  revert cur. induction raw as [|a raw IH]; intros cur; simpl.
  - now rewrite append_empty_r.
  - rewrite alt_matches_separates.
    destruct (Spec.separates delimiter a).
    + rewrite append_empty_r. f_equal. rewrite IH.
      destruct (Spec.labels delimiter raw) as [|l ls] eqn:E; [|reflexivity].
      now apply labels_not_nil in E.
    + rewrite IH.
      destruct (Spec.labels delimiter raw) as [|l ls] eqn:E.
      * now apply labels_not_nil in E.
      * now rewrite append_snoc.
Qed.

Lemma re_split_labels (raw : string) :
  Py.re_split delimiter raw = Spec.labels delimiter raw.
Proof.
  unfold Py.re_split. rewrite re_split_from_labels.
  destruct (Spec.labels delimiter raw) as [|l ls] eqn:E; [|reflexivity].
  now apply labels_not_nil in E.
Qed.

(** No label holds a separator. *)
Lemma labels_free (raw : string) :
  Forall (Spec.free_of delimiter) (Spec.labels delimiter raw).
Proof.
  induction raw as [|a raw IH]; simpl.
  - constructor; [|constructor]. intros b [].
  - destruct (Spec.separates delimiter a) eqn:Ea.
    + constructor; [|assumption]. intros b [].
    + destruct (Spec.labels delimiter raw) as [|l ls].
      * constructor; [|constructor]. intros b [Hb|[]]. now subst b.
      * inversion IH as [|? ? Hl Hls]; subst. constructor; [|assumption].
        intros b [Hb|Hb]; [now subst b | now apply Hl].
Qed.

(** The labels, with the separators that stood between them put back, are
    the raw value: the split loses nothing and cuts at separators only. *)
Lemma labels_weave (raw : string) :
  exists seps : list ascii,
    Forall (fun a => Spec.separates delimiter a = true) seps /\
    List.length (Spec.labels delimiter raw) = S (List.length seps) /\
    Spec.weave (Spec.labels delimiter raw) seps = raw.
Proof.
  induction raw as [|a raw IH]; simpl.
  - exists []. repeat split. constructor.
  - destruct IH as [seps [Hs [Hl Hw]]].
    destruct (Spec.separates delimiter a) eqn:Ea.
    + exists (a :: seps). repeat split.
      * now constructor.
      * simpl. now rewrite Hl.
      * simpl. now rewrite Hw.
    + destruct (Spec.labels delimiter raw) as [|l ls]; [discriminate|].
      exists seps. repeat split; [assumption | assumption |].
      simpl in *. destruct seps as [|b seps]; simpl in *.
      * destruct ls; [now subst | discriminate].
      * now rewrite Hw.
Qed.

Lemma labels_free_prefix (l rest : string) :
  Spec.free_of delimiter l ->
  Spec.labels delimiter (l ++ rest)
  = match Spec.labels delimiter rest with
    | x :: xs => (l ++ x) :: xs
    | [] => [l]
    end.
Proof.
  induction l as [|a l IH]; intros Hfree; simpl.
  - destruct (Spec.labels delimiter rest) as [|x xs] eqn:E; [|reflexivity].
    now apply labels_not_nil in E.
  - rewrite (Hfree a (or_introl eq_refl)).
    rewrite IH by (intros b Hb; apply Hfree; now right).
    destruct (Spec.labels delimiter rest) as [|x xs] eqn:E; [|reflexivity].
    now apply labels_not_nil in E.
Qed.

(** And the labels are the only such cutting of the raw value. *)
Lemma labels_unique (ls : list string) (seps : list ascii) :
  Forall (Spec.free_of delimiter) ls ->
  Forall (fun a => Spec.separates delimiter a = true) seps ->
  List.length ls = S (List.length seps) ->
  Spec.labels delimiter (Spec.weave ls seps) = ls.
Proof.
  revert seps. induction ls as [|l ls IH]; intros seps Hfree Hseps Hlen.
  - discriminate.
  - inversion Hfree as [|? ? Hl Hls]; subst.
    destruct seps as [|a seps]; simpl in *.
    + destruct ls; [|discriminate].
      rewrite <- (append_empty_r l) at 1. rewrite labels_free_prefix by assumption.
      simpl. now rewrite append_empty_r.
    + inversion Hseps as [|? ? Ha Hs]; subst.
      rewrite labels_free_prefix by assumption. simpl. rewrite Ha.
      rewrite append_empty_r. f_equal. apply IH; [assumption | assumption | lia].
Qed.

End Labels.

(** [str.split] on one character and the regular expression of that one
    character cut alike. *)
Lemma re_split_one_char (a : ascii) (s : string) :
  Py.re_split (String a "") s = Py.split a s.
Proof.
  assert (Hone : forall b, Py.alt_matches (String a "") b = Ascii.eqb b a)
    by (intros b; unfold Py.alt_matches; simpl; apply orb_false_r).
  unfold Py.re_split, Py.split.
  enough (H : forall cur, Py.re_split_from (String a "") cur s = Py.split_from a cur s)
    by apply H.
  induction s as [|b s IH]; intros cur;
    cbn [Py.re_split_from Py.split_from]; [reflexivity|].
  rewrite Hone. destruct (Ascii.eqb b a); now rewrite IH.
Qed.

(** ** Slices *)

Lemma list_slice_from_last {A : Type} (n : positive) (l : list A) :
  Py.list_slice_from (Z.neg n) l = Spec.keep_last (Pos.to_nat n) l.
Proof.
  unfold Py.list_slice_from, Spec.keep_last.
  rewrite firstn_rev, rev_involutive.
  replace (Z.neg n <? 0)%Z with true by (symmetry; apply Z.ltb_lt; lia).
  f_equal. lia.
Qed.

Lemma list_slice_from_drop {A : Type} (n : Z) (l : list A) :
  (n <= 0)%Z ->
  Py.list_slice_from (- n) l = skipn (Z.to_nat (- n)) l.
Proof.
  intros Hn. unfold Py.list_slice_from.
  replace (- n <? 0)%Z with false by (symmetry; apply Z.ltb_ge; lia).
  destruct (Z.min_spec (- n) (Z.of_nat (List.length l))) as [[Hlt ->]|[Hge ->]].
  - reflexivity.
  - rewrite Nat2Z.id. rewrite skipn_all. symmetry. apply skipn_all2. lia.
Qed.

(** ** The query context *)

Lemma contains_app (c : ascii) (s t : string) :
  Py.contains c (s ++ t) = Py.contains c s || Py.contains c t.
Proof.
  induction s as [|a s IH]; simpl; [reflexivity|].
  now destruct (Ascii.eqb a c).
Qed.

(** The sender the accessor returns always holds an ["@"]. *)
Lemma sender_contains_at (q : Query.t) :
  Py.contains "@" (Query.sender q) = true.
Proof.
  unfold Query.sender.
  destruct (Py.contains "@" (Query._sender q)) eqn:E; simpl;
    [assumption | reflexivity].
Qed.

Lemma split_from_pieces (c : ascii) (s cur : string) :
  1 <= List.length (Py.split_from c cur s) /\
  (Py.contains c s = true -> 2 <= List.length (Py.split_from c cur s)).
Proof.
  revert cur. induction s as [|a s IH]; intros cur; simpl.
  - split; [lia | discriminate].
  - destruct (Ascii.eqb a c).
    + simpl. destruct (IH "") as [H1 _]. split; [lia | intros _; lia].
    + apply IH.
Qed.

Lemma item_in_range {A : Type} (l : list A) (i : nat) :
  i < List.length l -> exists a, Py.item l i = Py.Ok a.
Proof.
  intros Hi. unfold Py.item.
  destruct (nth_error l i) as [a|] eqn:E; [now exists a|].
  apply nth_error_None in E. lia.
Qed.

(** Neither part of the sender is ever out of range. *)
Lemma sender_local_ok (q : Query.t) :
  exists l, Py.item (Py.split "@" (Query.sender q)) 0 = Py.Ok l.
Proof.
  apply item_in_range.
  destruct (split_from_pieces "@" (Query.sender q) "") as [H _].
  unfold Py.split. lia.
Qed.

Lemma sender_domain_ok (q : Query.t) :
  exists d, Py.item (Py.split "@" (Query.sender q)) 1 = Py.Ok d.
Proof.
  apply item_in_range.
  destruct (split_from_pieces "@" (Query.sender q) "") as [_ H].
  unfold Py.split. specialize (H (sender_contains_at q)). lia.
Qed.

Lemma Query_domain_ok (q : Query.t) :
  exists d, Query.domain q = Py.Ok d.
Proof.
  unfold Query.domain.
  destruct (Query._domain q) as [[|a d]|]; try apply sender_domain_ok.
  now exists (String a d).
Qed.

(** ** The macro engine *)

(** A branch of [expand] that leaves a text in [result]. *)
Ltac raw_is_text :=
  eexists; split; [reflexivity|];
  split; [discriminate | intros [H|H]; discriminate].

(** The raw value is always computed: it is a text, or [None] for the two
    types no branch of [expand] handles. *)
Lemma Macro_raw_ok (m : Macro.t) (q : Query.t) :
  exists r, Macro.raw m q = Py.Ok r /\
            (r = None <-> Macro.type m = Macro.IP_DOMAIN \/ Macro.type m = Macro.HELO).
Proof.
  unfold Macro.raw.
  destruct (Macro.type m) eqn:Ety.
  - raw_is_text.
  - destruct (sender_local_ok q) as [l ->]. simpl. raw_is_text.
  - destruct (sender_domain_ok q) as [l ->]. simpl. raw_is_text.
  - destruct (Query_domain_ok q) as [l ->]. simpl. raw_is_text.
  - destruct (Netaddr.version (Query.ip q)); raw_is_text.
  - eexists; split; [reflexivity|]. split; [now left | reflexivity].
  - destruct (Netaddr.version (Query.ip q)); raw_is_text.
  - eexists; split; [reflexivity|]. split; [now right | reflexivity].
Qed.

(** What [expand] does once the raw value is there. *)
Lemma Macro_expand_raw (m : Macro.t) (q : Query.t) (raw : string) :
  Macro.raw m q = Py.Ok (Some raw) ->
  Macro.expand m q
  = Py.Ok (String.concat "."
      (let ls := Spec.labels (Macro.delimiter m) raw in
       let ls := if Macro.reverse m then rev ls else ls in
       match Macro.length_true m with
       | Some n => Py.list_slice_from (- n) ls
       | None => ls
       end)).
Proof.
  intros Hraw. unfold Macro.expand. rewrite Hraw. simpl.
  unfold Py.join. now rewrite re_split_labels.
Qed.

Lemma Macro_init_fields (tok : string) (len : option Z) (r : bool)
    (delim : string) (m : Macro.t) :
  Macro.init tok len r delim = Py.Ok m ->
  Macro.Type_of tok = Py.Ok (Macro.type m) /\
  Macro.length m = len /\ Macro.reverse m = r /\
  Macro.delimiter m = match delim with EmptyString => "." | _ => delim end.
Proof.
  unfold Macro.init. destruct (Macro.Type_of tok) as [ty|e]; simpl; [|discriminate].
  intros H. injection H as <-. simpl. repeat split.
Qed.

(** C1. For a macro built with a length that is either left out or a
    positive integer, as the data model has it, and a query for which the
    raw value resolves, [Macro.expand] returns the raw value split into
    labels at every character of the macro's delimiter set, the labels
    reversed if [reverse] is set, then only the last [length] of them kept
    if [length] is set, then joined with ["."]. *)
Theorem Macro_expand_steps (tok : string) (len : option positive) (r : bool)
    (delim : string) (m : Macro.t) (q : Query.t) (raw : string) :
  Macro.init tok (option_map Z.pos len) r delim = Py.Ok m ->
  Macro.raw m q = Py.Ok (Some raw) ->
  Macro.expand m q = Py.Ok (Spec.expand_steps (Macro.delimiter m) r len raw).
Proof.
  intros Hinit Hraw.
  apply Macro_init_fields in Hinit. destruct Hinit as [_ [Hlen [Hrev _]]].
  rewrite (Macro_expand_raw _ _ _ Hraw). unfold Spec.expand_steps, Macro.length_true.
  rewrite Hlen, Hrev. destruct len as [n|]; simpl; [|reflexivity].
  now rewrite list_slice_from_last.
Qed.

(** The specification's example: for the domain ["email.example.com"], the
    Domain macro with delimiter ["."], reversed, of length 2, expands to
    ["example.email"]. *)
Lemma Macro_expand_steps_witness :
  Macro.init "d" (option_map Z.pos (Some 2%positive)) true "." = Py.Ok Sample.macro_d2r /\
  Macro.raw Sample.macro_d2r Sample.query_for_domain = Py.Ok (Some "email.example.com") /\
  Macro.expand Sample.macro_d2r Sample.query_for_domain = Py.Ok "example.email".
Proof.
  split; [reflexivity|]. split; [reflexivity|].
  exact (Macro_expand_steps "d" (Some 2%positive) true "." Sample.macro_d2r
           Sample.query_for_domain "email.example.com" eq_refl eq_refl).
Defined.

(** *** Construction *)

Lemma Type_of_value (ty : Macro.Type_) : Macro.Type_of (Macro.value ty) = Py.Ok ty.
Proof. destruct ty; reflexivity. Qed.

Lemma Type_of_known (tok : string) (ty : Macro.Type_) :
  Macro.Type_of tok = Py.Ok ty -> Macro.value ty = tok.
Proof.
  unfold Macro.Type_of.
  destruct (find _ Macro.members) as [ty'|] eqn:E; [|discriminate].
  intros H. injection H as <-.
  apply find_some in E. now apply String.eqb_eq.
Qed.

Lemma Type_of_unknown (tok : string) :
  (forall ty, Macro.value ty <> tok) -> Macro.Type_of tok = Py.Raise Py.ValueError.
Proof.
  intros Hno. unfold Macro.Type_of.
  destruct (find _ Macro.members) as [ty|] eqn:E; [|reflexivity].
  apply find_some in E. destruct E as [_ E]. apply String.eqb_eq in E.
  now apply Hno in E.
Qed.

(** C7, as the code has it.  A macro built from an unknown type token is
    refused by the enum with [ValueError], and no macro comes out.  A length
    that is set and not positive is refused nowhere: the macro is built, and
    wherever its raw value resolves [expand] returns a text, the labels
    from which the first [-length] were dropped (none for length 0). *)
Theorem Macro_init_checks_type_only (tok : string) (n : Z) (r : bool)
    (delim : string) :
  (n <= 0)%Z ->
  ((forall ty, Macro.value ty <> tok) ->
   forall len, Macro.init tok len r delim = Py.Raise Py.ValueError) /\
  (forall ty, Macro.value ty = tok ->
   exists m, Macro.init tok (Some n) r delim = Py.Ok m /\
     forall q raw, Macro.raw m q = Py.Ok (Some raw) ->
       Macro.expand m q
       = Py.Ok (String.concat "."
           (skipn (Z.to_nat (- n))
              (let ls := Spec.labels (Macro.delimiter m) raw in
               if r then rev ls else ls)))).
Proof.
  intros Hn. split.
  - intros Hno len. unfold Macro.init. now rewrite (Type_of_unknown _ Hno).
  - intros ty <-. unfold Macro.init. rewrite Type_of_value. simpl.
    eexists. split; [reflexivity|]. intros q raw Hraw.
    rewrite (Macro_expand_raw _ _ _ Hraw). cbv zeta.
    unfold Macro.length_true. cbn [Macro.length Macro.reverse Macro.delimiter].
    destruct (Z.eqb_spec n 0) as [->|Hnz]; [reflexivity|].
    now rewrite list_slice_from_drop.
Qed.

Lemma Macro_init_checks_type_only_witness :
  (-1 <= 0)%Z /\
  Macro.init "x" (Some (-1)%Z) false "." = Py.Raise Py.ValueError /\
  exists m, Macro.init "d" (Some (-1)%Z) false "." = Py.Ok m /\
            Macro.expand m Sample.query = Py.Ok "example.com".
Proof.
  assert (Hn : (-1 <= 0)%Z) by lia.
  split; [exact Hn|]. split.
  - apply (proj1 (Macro_init_checks_type_only "x" (-1) false "." Hn)).
    intros ty; destruct ty; discriminate.
  - destruct (proj2 (Macro_init_checks_type_only "d" (-1) false "." Hn)
                Macro.DOMAIN eq_refl) as [m [Hm Hex]].
    exists m. split; [exact Hm|].
    injection Hm as <-. now rewrite (Hex Sample.query "email.example.com" eq_refl).
Defined.

(** C7 as stated does not hold: with length 0, and with length -1, the
    macro is built and expands to a text. *)
Lemma Macro_length_not_positive_expands :
  Macro.init "d" (Some 0%Z) false "." = Py.Ok (Macro.mk Macro.DOMAIN (Some 0%Z) false ".") /\
  Macro.expand (Macro.mk Macro.DOMAIN (Some 0%Z) false ".") Sample.query
    = Py.Ok "email.example.com" /\
  Macro.init "d" (Some (-1)%Z) false "." = Py.Ok (Macro.mk Macro.DOMAIN (Some (-1)%Z) false ".") /\
  Macro.expand (Macro.mk Macro.DOMAIN (Some (-1)%Z) false ".") Sample.query
    = Py.Ok "example.com".
Proof. repeat split. Qed.

(** C10. A macro built with the empty string for delimiter is the macro
    built with ["."]: the delimiter it stores is ["."], its literal form has
    nothing between the options and the closing brace, and [expand] cuts the
    raw value at every ["."]. *)
Theorem Macro_empty_delimiter (tok : string) (len : option Z) (r : bool)
    (m : Macro.t) :
  Macro.init tok len r "" = Py.Ok m ->
  Macro.init tok len r "." = Py.Ok m /\
  Macro.delimiter m = "." /\
  Macro.str m
  = "%{" ++ tok
         ++ match len with
            | Some n => if (n =? 0)%Z then "" else Py.fmt_d n
            | None => ""
            end
         ++ (if r then "r" else "") ++ "}" /\
  forall q,
    Macro.expand m q
    = (raw <- Macro.raw m q ;;
       match raw with
       | None => Py.Raise Py.TypeError
       | Some raw =>
           let ls := Py.split "." raw in
           let ls := if r then rev ls else ls in
           let ls :=
             match Macro.length_true m with
             | Some n => Py.list_slice_from (- n) ls
             | None => ls
             end in
           Py.Ok (Py.join "." ls)
       end).
Proof.
  intros Hinit. split; [exact Hinit|].
  apply Macro_init_fields in Hinit. destruct Hinit as [Hty [Hlen [Hrev Hdel]]].
  split; [exact Hdel|]. split.
  - unfold Macro.str, Macro.length_true. rewrite Hlen, Hrev, Hdel.
    rewrite (Type_of_known _ _ Hty). simpl.
    destruct len as [n|]; [destruct (n =? 0)%Z|]; destruct r; simpl;
      rewrite ?append_empty_r, ?append_assoc; reflexivity.
  - intros q. unfold Macro.expand.
    destruct (Macro.raw m q) as [[raw|]|e]; simpl; try reflexivity.
    now rewrite Hdel, Hrev, re_split_one_char.
Qed.

Lemma Macro_empty_delimiter_witness :
  Macro.init "d" (Some 2%Z) true "" = Py.Ok Sample.macro_d2r /\
  Macro.init "d" (Some 2%Z) true "." = Py.Ok Sample.macro_d2r /\
  Macro.delimiter Sample.macro_d2r = "." /\
  Macro.str Sample.macro_d2r = "%{d2r}" /\
  Macro.expand Sample.macro_d2r Sample.query = Py.Ok "example.email".
Proof.
  destruct (Macro_empty_delimiter "d" (Some 2%Z) true Sample.macro_d2r eq_refl)
    as [H1 [H2 [H3 H4]]].
  split; [reflexivity|]. split; [exact H1|]. split; [exact H2|].
  split; [exact H3|]. now rewrite H4.
Defined.

(** *** Failure *)

(** [expand] fails for the two unhandled types and for them only, and
    then with the [TypeError] of [re.split]. *)
Lemma Macro_expand_unsupported (m : Macro.t) (q : Query.t) :
  Macro.type m = Macro.IP_DOMAIN \/ Macro.type m = Macro.HELO ->
  Macro.expand m q = Py.Raise Py.TypeError.
Proof.
  intros Hty. destruct (Macro_raw_ok m q) as [r [Hr Hnone]].
  unfold Macro.expand. rewrite Hr. apply Hnone in Hty. now subst r.
Qed.

Lemma Macro_expand_error (m : Macro.t) (q : Query.t) (e : Py.exn) :
  Macro.expand m q = Py.Raise e -> e = Py.TypeError.
Proof.
  destruct (Macro_raw_ok m q) as [r [Hr _]].
  unfold Macro.expand. rewrite Hr. destruct r as [raw|]; simpl; [discriminate|].
  intros H. now injection H.
Qed.

(** ** Domain-spec expansion *)

Section DomainExpand.

Variable query : Query.t.

Lemma loop_raised (d : Domain.t) (e : Py.exn) :
  fold_left (Domain.append_fragment query) d (Py.Raise e) = Py.Raise e.
Proof. induction d as [|i d IH]; simpl; [reflexivity | exact IH]. Qed.

(** The loop appends to what it has the concatenation of what is left. *)
Lemma loop_expansion (d : Domain.t) (acc : string) :
  fold_left (Domain.append_fragment query) d (Py.Ok acc)
  = (rest <- Spec.expansion d query ;; Py.Ok (acc ++ rest)).
Proof.
  revert acc. induction d as [|[s|m] d IH]; intros acc; simpl.
  - now rewrite append_empty_r.
  - rewrite IH. destruct (Spec.expansion d query); simpl; [|reflexivity].
    now rewrite append_assoc.
  - destruct (Macro.expand m query) as [piece|e]; simpl.
    + rewrite IH. destruct (Spec.expansion d query); simpl; [|reflexivity].
      now rewrite append_assoc.
    + apply loop_raised.
Qed.

Lemma concat_expansion (d : Domain.t) :
  Domain.concat d query = Spec.expansion d query.
Proof.
  unfold Domain.concat. rewrite loop_expansion.
  now destruct (Spec.expansion d query).
Qed.

(** A fragment that fails makes the concatenation fail. *)
Lemma expansion_unsupported (d : Domain.t) (m : Macro.t) :
  In (Domain.Placeholder m) d ->
  Macro.expand m query = Py.Raise Py.TypeError ->
  Spec.expansion d query = Py.Raise Py.TypeError.
Proof.
  intros Hin Hm. induction d as [|[s|m'] d IH]; simpl.
  - destruct Hin.
  - destruct Hin as [Heq|Hin]; [discriminate|]. now rewrite (IH Hin).
  - destruct (Macro.expand m' query) as [piece|e] eqn:E; simpl.
    + destruct Hin as [Heq|Hin].
      * injection Heq as ->. rewrite Hm in E. discriminate.
      * now rewrite (IH Hin).
    + now rewrite (Macro_expand_error _ _ _ E).
Qed.

End DomainExpand.

(** C8. A macro of type IpDomain ([p]) or Helo ([h]) does not expand
    against a [Query]: no branch of [expand] gives it a raw value, and
    [expand] raises (the [TypeError] of [re.split] on [None]).  The
    exception passes through [Domain.expand] as it is: a domain-spec that
    holds such a macro fails to expand with that same exception. *)
Theorem Macro_unsupported_types (m : Macro.t) (q : Query.t) :
  Macro.type m = Macro.IP_DOMAIN \/ Macro.type m = Macro.HELO ->
  Macro.expand m q = Py.Raise Py.TypeError /\
  forall d : Domain.t,
    In (Domain.Placeholder m) d -> Domain.expand d q = Py.Raise Py.TypeError.
Proof.
  intros Hty. pose proof (Macro_expand_unsupported m q Hty) as Hm.
  split; [exact Hm|]. intros d Hin.
  unfold Domain.expand. rewrite concat_expansion.
  now rewrite (expansion_unsupported q d m Hin Hm).
Qed.

Lemma Macro_unsupported_types_witness :
  (Macro.type Sample.macro_h = Macro.IP_DOMAIN \/
   Macro.type Sample.macro_h = Macro.HELO) /\
  Macro.expand Sample.macro_h Sample.query = Py.Raise Py.TypeError /\
  Domain.expand Sample.helo_domain Sample.query = Py.Raise Py.TypeError.
Proof.
  assert (Hty : Macro.type Sample.macro_h = Macro.IP_DOMAIN \/
                Macro.type Sample.macro_h = Macro.HELO)
    by (right; reflexivity).
  destruct (Macro_unsupported_types Sample.macro_h Sample.query Hty) as [H1 H2].
  split; [exact Hty|]. split; [exact H1|].
  apply H2. right. left. reflexivity.
Defined.

(** *** The length cap *)

Lemma slice_from_length (n : nat) (s : string) :
  String.length (Py.slice_from n s) = String.length s - n.
Proof.
  revert s. induction n as [|n IH]; intros [|a s]; simpl; try reflexivity.
  apply IH.
Qed.

(** Where [index] finds the first ["."], the text splits into a label
    without ["."], the ["."], and the slice behind it. *)
Lemma index_split (c : ascii) (s : string) (i : nat) :
  Py.index c s = Some i ->
  exists l, Py.contains c l = false /\ String.length l = i /\
            s = l ++ String c (Py.slice_from (i + 1) s).
Proof.
  revert i. induction s as [|a s IH]; intros i; simpl; [discriminate|].
  destruct (Ascii.eqb_spec a c) as [->|Hne].
  - intros H. injection H as <-. exists "". simpl. repeat split.
  - destruct (Py.index c s) as [j|]; [|discriminate].
    intros H. injection H as <-.
    destruct (IH j eq_refl) as [l [Hl [Hlen Hs]]].
    exists (String a l). simpl. repeat split.
    + destruct (Ascii.eqb_spec a c); [contradiction | assumption].
    + now rewrite Hlen.
    + now rewrite <- Hs.
Qed.

Lemma index_none (c : ascii) (s : string) :
  Py.index c s = None -> Py.contains c s = false.
Proof.
  induction s as [|a s IH]; simpl; [reflexivity|].
  destruct (Ascii.eqb a c); [discriminate|].
  destruct (Py.index c s); [discriminate | exact IH].
Qed.

(** The loop returns a text within the cap, reached by strippings. *)
Lemma strip_ok (s r : string) :
  Domain.strip s = Py.Ok r ->
  String.length r <= 253 /\ Spec.strips_to s r.
Proof.
  funelim (Domain.strip s).
  - intros H'. injection H' as <-. split; [assumption | constructor].
  - intros Hr.
    match goal with
    | IH : forall r, Domain.strip _ = Py.Ok r -> _ |- _ =>
        destruct (IH r Hr) as [Hlen Hto]
    end.
    split; [assumption|].
    apply Spec.strips_more with (s' := Py.slice_from (i + 1) result); [|assumption].
    split; [assumption|].
    match goal with
    | Hi : Py.index _ _ = Some _ |- _ =>
        destruct (index_split _ _ _ Hi) as [l' [Hl [_ Hs]]]
    end.
    now exists l'.
  - discriminate.
Qed.

(** Where the loop raises, it is the [ValueError] of [index]: strippings led
    to a text over the cap with no ["."] left in it. *)
Lemma strip_raise (s : string) (e : Py.exn) :
  Domain.strip s = Py.Raise e ->
  e = Py.ValueError /\
  exists t, Spec.strips_to s t /\ 253 < String.length t /\ Py.contains "." t = false.
Proof.
  funelim (Domain.strip s).
  - discriminate.
  - intros He.
    match goal with
    | IH : forall e, Domain.strip _ = Py.Raise e -> _ |- _ =>
        destruct (IH e He) as [-> [t [Hto [Hlen Hdot]]]]
    end.
    split; [reflexivity|]. exists t. split; [|now split].
    apply Spec.strips_more with (s' := Py.slice_from (i + 1) result); [|assumption].
    split; [assumption|].
    match goal with
    | Hi : Py.index _ _ = Some _ |- _ =>
        destruct (index_split _ _ _ Hi) as [l' [Hl [_ Hs]]]
    end.
    now exists l'.
  - intros He. injection He as <-. split; [reflexivity|].
    exists result. split; [constructor|]. split; [assumption|].
    now apply index_none.
Qed.

(** A text cut at its first ["."] in two ways is cut the same way. *)
Lemma first_dot_unique (l l' s s' : string) :
  Py.contains "." l = false -> Py.contains "." l' = false ->
  l ++ "." ++ s = l' ++ "." ++ s' -> l = l' /\ s = s'.
Proof.
  revert l'. induction l as [|a l IH]; intros [|a' l'] Hl Hl' Heq; simpl in *.
  - injection Heq as ->. now split.
  - injection Heq as <- _. discriminate.
  - injection Heq as -> _. discriminate.
  - injection Heq as -> Heq.
    destruct (Ascii.eqb a' "."); [discriminate|].
    destruct (IH l' Hl Hl' Heq) as [-> ->]. now split.
Qed.

Lemma strips_functional (s a b : string) :
  Spec.strips s a -> Spec.strips s b -> a = b.
Proof.
  intros [_ [l [Hl Hs]]] [_ [l' [Hl' Hs']]]. rewrite Hs in Hs'.
  now destruct (first_dot_unique _ _ _ _ Hl Hl' Hs').
Qed.

(** Stripping while the text is over the cap has one outcome. *)
Lemma strips_to_unique (s r r' : string) :
  Spec.strips_to s r -> String.length r <= 253 ->
  Spec.strips_to s r' -> String.length r' <= 253 -> r = r'.
Proof.
  intros Hto. revert r'. induction Hto as [s|s s1 s2 Hstep Hto IH]; intros r' Hlen Hto' Hlen'.
  - destruct Hto' as [|s s1 s2 [Hover _] _]; [reflexivity | lia].
  - destruct Hto' as [s|s s1' s2' Hstep' Hto'].
    + destruct Hstep as [Hover _]. lia.
    + rewrite (strips_functional _ _ _ Hstep' Hstep) in Hto'. now apply IH.
Qed.

(** What strippings leave is the text without some leading labels. *)
Lemma strips_to_suffix (s r : string) :
  Spec.strips_to s r -> Spec.label_suffix r s.
Proof.
  induction 1 as [s|s s1 s2 [_ [l [_ Hs]]] _ [pre [Hpre Hend]]].
  - exists "". split; [reflexivity | now left].
  - exists ((l ++ ".") ++ pre). split.
    + rewrite Hs, Hpre. now rewrite !append_assoc.
    + right. destruct Hend as [->|[p ->]].
      * exists l. now rewrite append_empty_r.
      * exists ((l ++ ".") ++ p). now rewrite !append_assoc.
Qed.

(** C2, as the code has it.  [Domain.expand] concatenates the fragments,
    a text fragment as it is and a macro fragment by its expansion, and
    then strips the leftmost label, the text up to and including the first
    ["."], as long as the text is over 253 characters, which is what [len]
    counts.  So whenever it returns, what it returns is at most 253
    characters long and is the concatenation without some of its leading
    labels. *)
Theorem Domain_expand_cap (d : Domain.t) (q : Query.t) (r : string) :
  Domain.expand d q = Py.Ok r ->
  exists full,
    Spec.expansion d q = Py.Ok full /\
    Spec.strips_to full r /\
    String.length r <= 253 /\
    Spec.label_suffix r full.
Proof.
  unfold Domain.expand. rewrite concat_expansion.
  destruct (Spec.expansion d q) as [full|e]; simpl; [|discriminate].
  intros Hstrip. apply strip_ok in Hstrip. destruct Hstrip as [Hlen Hto].
  exists full. repeat split; try assumption. now apply strips_to_suffix.
Qed.

(** An expansion of 322 characters: two labels go, 200 characters stay. *)
Lemma Domain_expand_cap_witness :
  Domain.expand Sample.long_domain Sample.query = Py.Ok Sample.capped /\
  exists full,
    Spec.expansion Sample.long_domain Sample.query = Py.Ok full /\
    Spec.strips_to full Sample.capped /\
    String.length Sample.capped <= 253 /\
    Spec.label_suffix Sample.capped full.
Proof.
  assert (H : Domain.expand Sample.long_domain Sample.query = Py.Ok Sample.capped)
    by (vm_compute; reflexivity).
  split; [exact H|].
  exact (Domain_expand_cap Sample.long_domain Sample.query Sample.capped H).
Defined.

(** C2 as stated does not hold: the cap counts characters, not octets.  A
    domain of 142 characters, 130 of them accented, is returned as it is,
    and it is 272 octets long. *)
Lemma Domain_expand_over_253_octets :
  Domain.expand Sample.accented_domain Sample.query = Py.Ok Sample.accented_text /\
  String.length Sample.accented_text = 142 /\
  Spec.octets Sample.accented_text = 272 /\
  ~ Spec.octets Sample.accented_text <= 253.
Proof.
  assert (Hoct : Spec.octets Sample.accented_text = 272) by (vm_compute; reflexivity).
  split; [vm_compute; reflexivity|]. split; [vm_compute; reflexivity|].
  split; [exact Hoct|]. rewrite Hoct. lia.
Qed.

(** A text is at least as many octets as characters and at most twice as
    many, and as many where it is ASCII: there the cap is one of octets. *)
Lemma octets_bounds (s : string) :
  String.length s <= Spec.octets s <= 2 * String.length s.
Proof.
  induction s as [|a s IH]; simpl; [lia|].
  unfold Spec.utf8_width. destruct (nat_of_ascii a <? 128)%nat; lia.
Qed.

Lemma octets_ascii_only (s : string) :
  Spec.ascii_only s -> Spec.octets s = String.length s.
Proof.
  induction s as [|a s IH]; intros Hs; [reflexivity|].
  simpl. rewrite IH by (intros b Hb; apply Hs; now right).
  unfold Spec.utf8_width.
  assert (Ha : nat_of_ascii a < 128) by (apply Hs; now left).
  apply Nat.ltb_lt in Ha. now rewrite Ha.
Qed.

Lemma Domain_expand_ascii_octets (d : Domain.t) (q : Query.t) (r : string) :
  Domain.expand d q = Py.Ok r -> Spec.ascii_only r -> Spec.octets r <= 253.
Proof.
  unfold Domain.expand. destruct (Domain.concat d q) as [full|e]; simpl; [|discriminate].
  intros Hstrip Hascii. rewrite (octets_ascii_only _ Hascii).
  now destruct (strip_ok _ _ Hstrip).
Qed.

(** ** The literal rendering of a domain-spec *)

(** *** [str.replace] *)

Lemma prefix_empty (s : string) : String.prefix "" s = true.
Proof. now destruct s. Qed.

Lemma prefix_cons (c a : ascii) (p s : string) :
  String.prefix (String c p) (String a s) = Ascii.eqb a c && String.prefix p s.
Proof.
  simpl. destruct (ascii_dec c a) as [->|Hne].
  - now rewrite Ascii.eqb_refl.
  - destruct (Ascii.eqb_spec a c) as [->|_]; [contradiction | reflexivity].
Qed.

Lemma prefix_cons_empty (c : ascii) (p : string) :
  String.prefix (String c p) "" = false.
Proof. reflexivity. Qed.

(** A one-character [old] is replaced character by character. *)
Lemma replace_char_cons (c a : ascii) (new s : string) :
  Py.replace (String c "") new (String a s)
  = (if Ascii.eqb a c then new else String a "")
      ++ Py.replace (String c "") new s.
Proof.
  unfold Py.replace. cbn [Py.replace_go]. rewrite prefix_cons, prefix_empty.
  rewrite andb_true_r. now destruct (Ascii.eqb a c).
Qed.

Lemma replace_char_app (c : ascii) (new s t : string) :
  Py.replace (String c "") new (s ++ t)
  = Py.replace (String c "") new s ++ Py.replace (String c "") new t.
Proof.
  induction s as [|a s IH]; [reflexivity|].
  change (String a s ++ t) with (String a (s ++ t)).
  now rewrite !replace_char_cons, IH, append_assoc.
Qed.

(** Where [old] does not start, the character is kept. *)
Lemma replace_go_keep (old new : string) (a : ascii) (s : string) :
  String.prefix old (String a s) = false ->
  Py.replace_go old new 0 (String a s) = String a (Py.replace_go old new 0 s).
Proof. intros H. cbn [Py.replace_go]. now rewrite H. Qed.

(** *** The three replacements of [Domain.escape], one after the other *)

(** After the doubling of the percent signs no ["%20"] starts anywhere,
    and ["20"] starts where it did. *)
Lemma doubled_no_token (s : string) :
  String.prefix "%20" (Py.replace "%" "%%" s) = false.
Proof.
  destruct s as [|a s]; [reflexivity|].
  rewrite replace_char_cons. destruct (Ascii.eqb_spec a "%") as [->|Hne].
  - reflexivity.
  - cbn [append]. rewrite prefix_cons.
    destruct (Ascii.eqb_spec a "%"); [contradiction | reflexivity].
Qed.

Lemma doubled_prefix_0 (s : string) :
  String.prefix "0" (Py.replace "%" "%%" s) = String.prefix "0" s.
Proof.
  destruct s as [|a s]; [reflexivity|].
  rewrite replace_char_cons. destruct (Ascii.eqb_spec a "%") as [->|Hne].
  - reflexivity.
  - cbn [append]. now rewrite !prefix_cons, !prefix_empty.
Qed.

Lemma doubled_prefix_20 (s : string) :
  String.prefix "20" (Py.replace "%" "%%" s) = String.prefix "20" s.
Proof.
  destruct s as [|a s]; [reflexivity|].
  rewrite replace_char_cons. destruct (Ascii.eqb_spec a "%") as [->|Hne].
  - reflexivity.
  - cbn [append]. now rewrite !prefix_cons, doubled_prefix_0.
Qed.

(** The first two replacements, on a text by its first character. *)
Lemma escape2_other (a : ascii) (s : string) :
  a <> "%"%char ->
  Py.replace "%%20" "%-" (Py.replace "%" "%%" (String a s))
  = String a (Py.replace "%%20" "%-" (Py.replace "%" "%%" s)).
Proof.
  intros Hne. rewrite replace_char_cons.
  destruct (Ascii.eqb_spec a "%") as [|_]; [contradiction|].
  cbn [append]. unfold Py.replace at 1 3. apply replace_go_keep.
  rewrite prefix_cons.
  destruct (Ascii.eqb_spec a "%"); [contradiction | reflexivity].
Qed.

Lemma escape2_token (s : string) :
  Py.replace "%%20" "%-" (Py.replace "%" "%%" ("%20" ++ s))
  = "%-" ++ Py.replace "%%20" "%-" (Py.replace "%" "%%" s).
Proof.
  change ("%20" ++ s) with (String "%" (String "2" (String "0" s))).
  rewrite !replace_char_cons.
  change (Py.replace "%%20" "%-" (String "%" (String "%" (String "2"
            (String "0" (Py.replace "%" "%%" s)))))
          = "%-" ++ Py.replace "%%20" "%-" (Py.replace "%" "%%" s)).
  generalize (Py.replace "%" "%%" s) as t. intros [|b t]; reflexivity.
Qed.

Lemma escape2_percent (s : string) :
  String.prefix "20" s = false ->
  Py.replace "%%20" "%-" (Py.replace "%" "%%" (String "%" s))
  = "%%" ++ Py.replace "%%20" "%-" (Py.replace "%" "%%" s).
Proof.
  intros Hno. rewrite replace_char_cons.
  change ((if ("%" =? "%")%char then "%%" else "%") ++ Py.replace "%" "%%" s)
    with (String "%" (String "%" (Py.replace "%" "%%" s))).
  unfold Py.replace at 1 3.
  rewrite replace_go_keep.
  - rewrite replace_go_keep; [reflexivity|].
    rewrite prefix_cons. apply doubled_no_token.
  - rewrite !prefix_cons, doubled_prefix_20, Hno. reflexivity.
Qed.

(** The three replacements together are the scan in one pass. *)
Lemma escape_scan_upto (n : nat) (s : string) :
  String.length s <= n -> Domain.escape s = Spec.escape_scan s.
Proof.
  revert s. induction n as [|n IH]; intros [|a s] Hlen; try reflexivity.
  - simpl in Hlen. lia.
  - simpl in Hlen. unfold Domain.escape in *.
    destruct (Ascii.eqb_spec a "%") as [->|Hne].
    + destruct s as [|b [|c s]].
      * reflexivity.
      * rewrite escape2_percent by (rewrite prefix_cons; apply andb_false_r).
        rewrite replace_char_app, IH by (simpl in *; lia). reflexivity.
      * cbn [Spec.escape_scan]. rewrite Ascii.eqb_refl.
        destruct (Ascii.eqb_spec b "2") as [->|Hb];
          [destruct (Ascii.eqb_spec c "0") as [->|Hc]|]; cbn [andb].
        -- change (String "%" (String "2" (String "0" s))) with ("%20" ++ s).
           rewrite escape2_token, replace_char_app, IH by (simpl in *; lia).
           reflexivity.
        -- rewrite escape2_percent.
           ++ rewrite replace_char_app, IH by (simpl in *; lia). reflexivity.
           ++ rewrite !prefix_cons.
              destruct (Ascii.eqb_spec c "0"); [contradiction|].
              apply andb_false_r.
        -- rewrite escape2_percent.
           ++ rewrite replace_char_app, IH by (simpl in *; lia). reflexivity.
           ++ rewrite prefix_cons.
              destruct (Ascii.eqb_spec b "2"); [contradiction | reflexivity].
    + rewrite escape2_other by assumption.
      rewrite replace_char_cons, IH by lia.
      cbn [Spec.escape_scan].
      destruct (Ascii.eqb_spec a "%") as [|_]; [contradiction|].
      now destruct (Ascii.eqb a " ").
Qed.

Lemma escape_scan_eq (s : string) : Domain.escape s = Spec.escape_scan s.
Proof. now apply (escape_scan_upto (String.length s)). Qed.

Lemma concat_empty_cons (x : string) (l : list string) :
  String.concat "" (x :: l) = x ++ String.concat "" l.
Proof. destruct l; simpl; [now rewrite append_empty_r | reflexivity]. Qed.

(** The loop of [Domain.__str__] appends the fragments' renderings. *)
Lemma str_loop (d : Domain.t) (acc : string) :
  fold_left
    (fun result i =>
       match i with
       | Domain.Text s => result ++ Domain.escape s
       | Domain.Placeholder m => result ++ Macro.str m
       end) d acc
  = acc ++ String.concat "" (map (Spec.fragment_str Domain.escape) d).
Proof.
  revert acc. induction d as [|i d IH]; intros acc.
  - simpl. now rewrite append_empty_r.
  - cbn [fold_left map]. rewrite IH, concat_empty_cons.
    destruct i; simpl; now rewrite append_assoc.
Qed.

(** C6, as the code has it.  The literal rendering of a domain-spec is the
    concatenation of its fragments' renderings: a macro fragment in its
    [%{...}] form, not expanded, and a text fragment rewritten in one pass
    from left to right in which ["%20"] becomes ["%-"], any other percent
    sign becomes ["%%"], a space becomes ["%_"], and every other character
    stays. *)
Theorem Domain_str_escape_scan (d : Domain.t) :
  Domain.str d
  = String.concat "" (map (Spec.fragment_str Spec.escape_scan) d).
Proof.
  unfold Domain.str. rewrite str_loop. cbn [append]. f_equal.
  apply map_ext. intros [s|m]; simpl; [apply escape_scan_eq | reflexivity].
Qed.

(** C6 as stated does not hold: the text ["%20"] is rendered ["%-"], where
    doubling the percent sign and touching nothing else gives ["%%20"]. *)
Lemma Domain_str_rewrites_percent_20 :
  Domain.str [Domain.Text "%20"] = "%-" /\
  String.concat "" (map (Spec.fragment_str Spec.escape_chars) [Domain.Text "%20"])
    = "%%20" /\
  Domain.str [Domain.Text "%20"]
    <> String.concat "" (map (Spec.fragment_str Spec.escape_chars) [Domain.Text "%20"]).
Proof. repeat split. discriminate. Qed.

(** A text in which no ["%20"] occurs is escaped character by character:
    the percent signs doubled, the spaces as ["%_"], nothing else touched. *)
Lemma escape_scan_without_token (s : string) :
  (forall pre post, s <> pre ++ "%20" ++ post) ->
  Spec.escape_scan s = Spec.escape_chars s.
Proof.
  induction s as [|a s IH]; intros Hno; [reflexivity|].
  assert (Hs : Spec.escape_scan s = Spec.escape_chars s).
  { apply IH. intros pre post Heq. apply (Hno (String a pre) post).
    simpl. now rewrite Heq. }
  cbn [Spec.escape_scan Spec.escape_chars]. rewrite Hs.
  destruct (Ascii.eqb_spec a "%") as [->|_]; [|reflexivity].
  destruct s as [|b [|c s]]; try reflexivity.
  destruct (Ascii.eqb_spec b "2") as [->|_]; [|reflexivity].
  destruct (Ascii.eqb_spec c "0") as [->|_]; [|reflexivity].
  now destruct (Hno "" s).
Qed.

(** ** The [ip4] and [ip6] mechanisms *)

Lemma high_bits_zero (v w i : Z) :
  (0 <= v < 2 ^ w)%Z -> (w <= i)%Z -> Z.testbit v i = false.
Proof.
  intros Hv Hi.
  assert (0 <= w)%Z
    by (destruct (Z.lt_ge_cases w 0) as [Hneg|]; [|assumption];
        rewrite Z.pow_neg_r in Hv by assumption; lia).
  rewrite <- (Z.mod_small v (2 ^ w)) by assumption.
  apply Z.mod_pow2_bits_high. lia.
Qed.

Lemma mask_clears_low_bits (v w k : Z) :
  (0 <= k <= w)%Z -> (0 <= v <= 2 ^ w - 1)%Z ->
  Z.land v (Z.lxor (2 ^ w - 1) (Z.shiftl 1 k - 1)) = Z.shiftl (Z.shiftr v k) k.
Proof.
  intros Hk Hv. apply Z.bits_inj'. intros i Hi.
  rewrite Z.land_spec, Z.lxor_spec.
  replace (2 ^ w - 1)%Z with (Z.ones w) by (rewrite Z.ones_equiv; lia).
  replace (Z.shiftl 1 k - 1)%Z with (Z.ones k) by (unfold Z.ones; lia).
  rewrite Z.shiftl_spec by assumption.
  destruct (Z.lt_ge_cases i k) as [Hlt|Hge].
  - rewrite (Z.ones_spec_low k), (Z.ones_spec_low w) by lia.
    rewrite (Z.testbit_neg_r _ (i - k)) by lia. simpl. apply andb_false_r.
  - rewrite (Z.ones_spec_high k), Z.shiftr_spec by lia.
    replace (i - k + k)%Z with i by lia.
    destruct (Z.lt_ge_cases i w) as [Hlw|Hgw].
    + rewrite (Z.ones_spec_low w) by lia. simpl. apply andb_true_r.
    + rewrite (high_bits_zero v w i) by lia. reflexivity.
Qed.

(** The network an [IPNetwork] answers with is the CIDR base of the one it
    was built from: the same version and prefix length, and the address with
    the bits below the prefix cleared. *)
Lemma IPNetwork_network_base (v : Netaddr.ipversion) (n p : Z) (net : IPNetwork.t) :
  IPNetwork.init v n p = Py.Ok net ->
  IPNetwork.network net
  = Netaddr.mkIPNetwork v
      (Z.shiftl (Z.shiftr n (Netaddr.width v - p)) (Netaddr.width v - p)) p.
Proof.
  unfold IPNetwork.init, Netaddr.new_IPNetwork.
  destruct (_ && _) eqn:Hok; simpl; [|discriminate].
  intros H. injection H as <-.
  apply andb_prop in Hok. destruct Hok as [Hok Hp2].
  apply andb_prop in Hok. destruct Hok as [Hok Hp1].
  apply andb_prop in Hok. destruct Hok as [Hn1 Hn2].
  apply Z.leb_le in Hp1, Hp2, Hn1, Hn2.
  unfold IPNetwork.network, Netaddr.cidr, Netaddr.netmask, Netaddr.hostmask. simpl.
  f_equal. unfold Netaddr.max_int in *. apply mask_clears_low_bits; lia.
Qed.

(** Where the base address is not itself a netmask, the prefix length is
    written if and only if it is not the width of the address. *)
Lemma IPNetwork_str_plain (n : IPNetwork.t) :
  Netaddr.is_netmask (IPNetwork.address n) = false ->
  IPNetwork.str n
  = "ip" ++ Py.fmt_d (IPNetwork.version n) ++ ":"
         ++ Netaddr.IPAddress_str (IPNetwork.address n)
         ++ (if (IPNetwork.prefix_length n
                 =? Netaddr.width (Netaddr.net_version (IPNetwork.network n)))%Z
             then "" else "/" ++ Py.fmt_d (IPNetwork.prefix_length n)).
Proof.
  intros Hmask. unfold IPNetwork.str, Netaddr.netmask_bits. rewrite Hmask. simpl.
  now destruct (_ =? _)%Z.
Qed.

(** The specification's two examples. *)
Example IPNetwork_str_examples :
  IPNetwork.str (IPNetwork.mk (Netaddr.mkIPNetwork Netaddr.V4 (Netaddr.ipv4 10 1 2 3) 24))
    = "ip4:10.1.2.0/24" /\
  IPNetwork.str (IPNetwork.mk (Netaddr.mkIPNetwork Netaddr.V4 (Netaddr.ipv4 192 0 2 1) 32))
    = "ip4:192.0.2.1".
Proof. split; reflexivity. Qed.

(** C3, where the code departs from it.  The network [0.0.0.0/0] is built
    and renders as ["ip4:0.0.0.0"], its prefix length 0 left out although it
    is not 32; so does [255.255.255.0/24]; and [255.255.255.0/32] renders
    with its ["/32"].  The rendering compares the prefix length with
    [netmask_bits] of the base address, which is the width only for an
    address that is not a netmask. *)
Theorem IPNetwork_str_netmask_address :
  IPNetwork.init Netaddr.V4 0 0 = Py.Ok (IPNetwork.mk (Netaddr.mkIPNetwork Netaddr.V4 0 0)) /\
  IPNetwork.prefix_length (IPNetwork.mk (Netaddr.mkIPNetwork Netaddr.V4 0 0)) = 0%Z /\
  IPNetwork.str (IPNetwork.mk (Netaddr.mkIPNetwork Netaddr.V4 0 0)) = "ip4:0.0.0.0" /\
  IPNetwork.str
    (IPNetwork.mk (Netaddr.mkIPNetwork Netaddr.V4 (Netaddr.ipv4 255 255 255 0) 24))
    = "ip4:255.255.255.0" /\
  IPNetwork.str
    (IPNetwork.mk (Netaddr.mkIPNetwork Netaddr.V4 (Netaddr.ipv4 255 255 255 0) 32))
    = "ip4:255.255.255.0/32".
Proof. repeat split. Qed.

(** ** The accessors of the query context *)

Lemma Query_sender_bare (s : string) (d : option string)
    (ip : option Netaddr.IPAddress) :
  Py.contains "@" s = false ->
  Query.sender (Query.init s d ip) = "postmaster@" ++ s.
Proof. intros H. unfold Query.sender. simpl. now rewrite H. Qed.

Lemma Query_sender_address (s : string) (d : option string)
    (ip : option Netaddr.IPAddress) :
  Py.contains "@" s = true ->
  Query.sender (Query.init s d ip) = s.
Proof. intros H. unfold Query.sender. simpl. now rewrite H. Qed.

Lemma Query_ip_default (s : string) (d : option string) :
  Query.ip (Query.init s d None) = Netaddr.loopback.
Proof. reflexivity. Qed.

Lemma split_from_none (c : ascii) (s cur : string) :
  Py.contains c s = false -> Py.split_from c cur s = [cur ++ s].
Proof.
  revert cur. induction s as [|a s IH]; intros cur; simpl.
  - now rewrite append_empty_r.
  - destruct (Ascii.eqb a c); [discriminate|].
    intros H. now rewrite IH, append_snoc.
Qed.

Lemma split_from_first (c : ascii) (l rest cur : string) :
  Py.contains c l = false ->
  Py.split_from c cur (l ++ String c rest) = (cur ++ l) :: Py.split_from c "" rest.
Proof.
  revert cur. induction l as [|a l IH]; intros cur; simpl.
  - rewrite Ascii.eqb_refl. now rewrite append_empty_r.
  - destruct (Ascii.eqb a c); [discriminate|].
    intros H. now rewrite IH, append_snoc.
Qed.

(** With no domain set, the accessor returns what stands between the first
    ["@"] of the sender and the next one, or the end. *)
Lemma Query_domain_between (q : Query.t) (l d rest : string) :
  Query._domain q = None ->
  Py.contains "@" l = false -> Py.contains "@" d = false ->
  Query.sender q = l ++ "@" ++ d ++ rest ->
  rest = "" \/ (exists rest', rest = String "@" rest') ->
  Query.domain q = Py.Ok d.
Proof.
  intros Hdom Hl Hd Hs Hrest. unfold Query.domain. rewrite Hdom, Hs.
  unfold Py.split. cbn [append]. rewrite split_from_first by assumption.
  destruct Hrest as [->|[rest' ->]].
  - rewrite append_empty_r, split_from_none by assumption. reflexivity.
  - rewrite split_from_first by assumption. reflexivity.
Qed.

(** For a sender with one ["@"], or a bare domain, that is the part after
    the ["@"]. *)
Lemma Query_domain_after_at (q : Query.t) (l d : string) :
  Query._domain q = None ->
  Py.contains "@" l = false -> Py.contains "@" d = false ->
  Query.sender q = l ++ "@" ++ d ->
  Query.domain q = Py.Ok d.
Proof.
  intros Hdom Hl Hd Hs.
  apply (Query_domain_between q l d ""); try assumption.
  - now rewrite append_empty_r.
  - now left.
Qed.

(** C9, where the code departs from it.  Take the sender at [example.com]
    whose local part is the quoted text [a@b], quotes included, and set no
    domain.  The sender is returned as it is, and the part of it after the
    ["@"] that ends the local part is [example.com]; the domain accessor
    returns [b] and the closing quote, the text between the first ["@"]
    and the second. *)
Theorem Query_domain_quoted_local_part :
  Query.sender Sample.quoted_query = Sample.quoted_sender /\
  Query.sender Sample.quoted_query
    = String Sample.dquote ("a@b" ++ String Sample.dquote "") ++ "@" ++ "example.com" /\
  Query.domain Sample.quoted_query = Py.Ok (String "b" (String Sample.dquote "")) /\
  Query.domain Sample.quoted_query <> Py.Ok "example.com".
Proof. repeat split. discriminate. Qed.

(** * Further properties *)

(** ** The query context *)

(** X1. Whatever sender a query was built with, the sender the accessor
    returns holds an ["@"]; a query built from that sender returns it
    again; and the domain accessor always returns, its index into the
    split sender being in range. *)
Theorem Query_sender_normal (q : Query.t) :
  Py.contains "@" (Query.sender q) = true /\
  (forall d ip, Query.sender (Query.init (Query.sender q) d ip) = Query.sender q) /\
  exists d, Query.domain q = Py.Ok d.
Proof.
  split; [apply sender_contains_at|]. split; [|apply Query_domain_ok].
  intros d ip. apply Query_sender_address. apply sender_contains_at.
Qed.

(** X2. For a sender without ["@"], a bare domain, the sender is that
    domain behind ["postmaster@"]; the domain accessor returns the bare
    domain, whether no domain or the empty string was given; the macro [l]
    resolves to ["postmaster"] and the macro [o] to the bare domain. *)
Theorem Query_bare_domain (s : string) (ip : option Netaddr.IPAddress)
    (len : option Z) (r : bool) (delim : string) :
  Py.contains "@" s = false ->
  Query.sender (Query.init s None ip) = "postmaster@" ++ s /\
  Query.domain (Query.init s None ip) = Py.Ok s /\
  Query.domain (Query.init s (Some "") ip) = Py.Ok s /\
  Macro.raw (Macro.mk Macro.SENDER_LOCAL len r delim) (Query.init s None ip)
    = Py.Ok (Some "postmaster") /\
  Macro.raw (Macro.mk Macro.SENDER_DOMAIN len r delim) (Query.init s None ip)
    = Py.Ok (Some s).
Proof.
  intros Hs.
  assert (Hsplit : forall d, Py.split "@" (Query.sender (Query.init s d ip))
                             = ["postmaster"; s]).
  { intros d. rewrite Query_sender_bare by assumption. unfold Py.split.
    change ("postmaster@" ++ s) with ("postmaster" ++ String "@" s).
    rewrite split_from_first by reflexivity.
    now rewrite split_from_none by assumption. }
  split; [now apply Query_sender_bare|].
  unfold Query.domain, Macro.raw. cbn [Query._domain Query.init Macro.type].
  change (Query.mk s None match ip with Some a => a | None => Netaddr.loopback end)
    with (Query.init s None ip).
  change (Query.mk s (Some "") match ip with Some a => a | None => Netaddr.loopback end)
    with (Query.init s (Some "") ip).
  rewrite !Hsplit. repeat split.
Qed.

Lemma Query_bare_domain_witness :
  Py.contains "@" "example.com" = false /\
  Query.sender Reading.bare_query = "postmaster@example.com" /\
  Query.domain Reading.bare_query = Py.Ok "example.com" /\
  Macro.raw (Macro.mk Macro.SENDER_LOCAL None false ".") Reading.bare_query
    = Py.Ok (Some "postmaster").
Proof.
  destruct (Query_bare_domain "example.com" None None false "." eq_refl)
    as [H1 [H2 [_ [H4 _]]]].
  split; [reflexivity|]. split; [exact H1|]. split; [exact H2 | exact H4].
Defined.

(** ** The macro engine *)

(** X3. [Macro.expand] raises for the macro types [p] and [h] and for no
    other: for the six other types it returns a text for every query,
    whatever the options. *)
Theorem Macro_expand_fails_iff (m : Macro.t) (q : Query.t) :
  (exists e, Macro.expand m q = Py.Raise e) <-> Reading.unhandled (Macro.type m).
Proof.
  destruct (Macro_raw_ok m q) as [raw [Hraw Hnone]]. split.
  - intros [e He]. apply Hnone. unfold Macro.expand in He. rewrite Hraw in He.
    destruct raw as [raw|]; [discriminate | reflexivity].
  - intros Hty. exists Py.TypeError. now apply Macro_expand_unsupported.
Qed.

Lemma join_labels_dotted (delimiter raw : string) :
  String.concat "." (Spec.labels delimiter raw) = Reading.dotted delimiter raw.
Proof.
  induction raw as [|a raw IH]; [reflexivity|].
  cbn [Spec.labels Reading.dotted].
  destruct (Spec.separates delimiter a).
  - destruct (Spec.labels delimiter raw) as [|l ls] eqn:E.
    + now apply labels_not_nil in E.
    + rewrite <- IH. reflexivity.
  - destruct (Spec.labels delimiter raw) as [|l ls] eqn:E.
    + now apply labels_not_nil in E.
    + rewrite <- IH. destruct ls; reflexivity.
Qed.

Lemma separates_dot (a : ascii) :
  Spec.separates "." a = Ascii.eqb a ".".
Proof.
  unfold Spec.separates.
  destruct (in_dec ascii_dec a (list_ascii_of_string ".")) as [Hin|Hout].
  - destruct Hin as [<-|[]]. now rewrite Ascii.eqb_refl.
  - destruct (Ascii.eqb_spec a ".") as [->|_]; [|reflexivity].
    exfalso. apply Hout. now left.
Qed.

Lemma dotted_dot (raw : string) : Reading.dotted "." raw = raw.
Proof.
  induction raw as [|a raw IH]; [reflexivity|].
  cbn [Reading.dotted]. rewrite IH, separates_dot.
  now destruct (Ascii.eqb_spec a ".") as [->|_].
Qed.

(** X4. A macro that is not reversed and has no length (or length 0)
    expands to its raw value with every delimiter character written as a
    dot and nothing else changed; with the delimiter ["."] it expands to
    the raw value itself. *)
Theorem Macro_expand_plain (m : Macro.t) (q : Query.t) (raw : string) :
  Macro.reverse m = false ->
  Macro.length_true m = None ->
  Macro.raw m q = Py.Ok (Some raw) ->
  Macro.expand m q = Py.Ok (Reading.dotted (Macro.delimiter m) raw) /\
  (Macro.delimiter m = "." -> Macro.expand m q = Py.Ok raw).
Proof.
  intros Hrev Hlen Hraw.
  assert (H : Macro.expand m q = Py.Ok (Reading.dotted (Macro.delimiter m) raw)).
  { rewrite (Macro_expand_raw _ _ _ Hraw). cbv zeta. rewrite Hrev, Hlen.
    now rewrite join_labels_dotted. }
  split; [exact H|]. intros Hdel. rewrite H, Hdel. now rewrite dotted_dot.
Qed.

Lemma Macro_expand_plain_witness :
  Macro.reverse (Macro.mk Macro.SENDER_LOCAL None false "-") = false /\
  Macro.length_true (Macro.mk Macro.SENDER_LOCAL None false "-") = None /\
  Macro.raw (Macro.mk Macro.SENDER_LOCAL None false "-") Sample.query
    = Py.Ok (Some "strong-bad") /\
  Macro.expand (Macro.mk Macro.SENDER_LOCAL None false "-") Sample.query
    = Py.Ok "strong.bad".
Proof.
  split; [reflexivity|]. split; [reflexivity|]. split; [reflexivity|].
  exact (proj1 (Macro_expand_plain (Macro.mk Macro.SENDER_LOCAL None false "-")
                  Sample.query "strong-bad" eq_refl eq_refl eq_refl)).
Defined.

(** X5. A length that is not below the number of labels cuts nothing:
    the macro expands as the same macro without a length. *)
Theorem Macro_length_covers_all (ty : Macro.Type_) (n : Z) (r : bool)
    (delim : string) (q : Query.t) (raw : string) :
  Macro.raw (Macro.mk ty (Some n) r delim) q = Py.Ok (Some raw) ->
  (Z.of_nat (List.length (Spec.labels delim raw)) <= n)%Z ->
  Macro.expand (Macro.mk ty (Some n) r delim) q
  = Macro.expand (Macro.mk ty None r delim) q.
Proof.
  intros Hraw Hn.
  assert (Hraw' : Macro.raw (Macro.mk ty None r delim) q = Py.Ok (Some raw))
    by exact Hraw.
  rewrite (Macro_expand_raw _ _ _ Hraw), (Macro_expand_raw _ _ _ Hraw').
  cbv zeta. unfold Macro.length_true. cbn [Macro.length Macro.reverse Macro.delimiter].
  assert (Hpos : (0 < n)%Z).
  { destruct (Spec.labels delim raw) eqn:E; [now apply labels_not_nil in E|].
    simpl in Hn. lia. }
  destruct (Z.eqb_spec n 0) as [->|_]; [lia|].
  do 2 f_equal. unfold Py.list_slice_from.
  replace (- n <? 0)%Z with true by (symmetry; apply Z.ltb_lt; lia).
  replace (Z.to_nat _) with 0; [reflexivity|].
  destruct r; rewrite ?length_rev; lia.
Qed.

Lemma Macro_length_covers_all_witness :
  Macro.raw (Macro.mk Macro.DOMAIN (Some 3%Z) true ".") Sample.query
    = Py.Ok (Some "email.example.com") /\
  (Z.of_nat (List.length (Spec.labels "." "email.example.com")) <= 3)%Z /\
  Macro.expand (Macro.mk Macro.DOMAIN (Some 3%Z) true ".") Sample.query
    = Macro.expand (Macro.mk Macro.DOMAIN None true ".") Sample.query.
Proof.
  assert (Hn : (Z.of_nat (List.length (Spec.labels "." "email.example.com")) <= 3)%Z)
    by (vm_compute; discriminate).
  split; [reflexivity|]. split; [exact Hn|].
  exact (Macro_length_covers_all Macro.DOMAIN 3 true "." Sample.query
           "email.example.com" eq_refl Hn).
Defined.

(** *** The [i] macro *)

Lemma free_of_dot (l : string) :
  Py.contains "." l = false -> Spec.free_of "." l.
Proof.
  induction l as [|a l IH]; intros H b Hb; simpl in *; [destruct Hb|].
  destruct (Ascii.eqb_spec a ".") as [|Hne]; [discriminate|].
  destruct Hb as [<-|Hb]; [|now apply IH].
  rewrite separates_dot. now destruct (Ascii.eqb_spec a ".").
Qed.

(** Labels without a separator, joined with dots, split back into
    themselves. *)
Lemma labels_join (delimiter : string) (l : string) (ls : list string) :
  Spec.separates delimiter "." = true ->
  Forall (Spec.free_of delimiter) (l :: ls) ->
  Spec.labels delimiter (String.concat "." (l :: ls)) = l :: ls.
Proof.
  intros Hdot. revert l. induction ls as [|l' ls IH]; intros l Hfree.
  - inversion Hfree as [|? ? Hl _]; subst. simpl.
    rewrite <- (append_empty_r l) at 1. rewrite labels_free_prefix by assumption.
    simpl. now rewrite append_empty_r.
  - inversion Hfree as [|? ? Hl Hrest]; subst.
    change (String.concat "." (l :: l' :: ls))
      with (l ++ String "." (String.concat "." (l' :: ls))).
    rewrite labels_free_prefix by assumption.
    cbn [Spec.labels]. rewrite Hdot, (IH l' Hrest). now rewrite append_empty_r.
Qed.

Lemma uint_no_dot (u : Decimal.uint) :
  Py.contains "." (NilEmpty.string_of_uint u) = false.
Proof. induction u; simpl; assumption || reflexivity. Qed.

Lemma fmt_d_no_dot (n : Z) : Py.contains "." (Py.fmt_d n) = false.
Proof.
  unfold Py.fmt_d, NilZero.string_of_int, NilZero.string_of_uint.
  destruct (Z.to_int n) as [u|u]; destruct u; simpl;
    try reflexivity; apply uint_no_dot.
Qed.

(** X6. For an IPv4 address the labels the [i] macro works on are the four
    octets in decimal: with the delimiter ["."] the macro expands to those
    octets, in reverse order if [reverse] is set, the last [length] of them
    if a length is set, joined with dots.  So the plain macro gives the
    dotted address and the reversed macro the octets from last to first. *)
Theorem Macro_ip4_octets (q : Query.t) (len : option Z) (r : bool) :
  Netaddr.version (Query.ip q) = Netaddr.V4 ->
  Macro.expand (Macro.mk Macro.IP len r ".") q
  = Py.Ok (String.concat "."
      (let ls := Reading.octets (Netaddr.value (Query.ip q)) in
       let ls := if r then rev ls else ls in
       match Macro.length_true (Macro.mk Macro.IP len r ".") with
       | Some n => Py.list_slice_from (- n) ls
       | None => ls
       end)) /\
  Macro.expand (Macro.mk Macro.IP None false ".") q
  = Py.Ok (Netaddr.IPAddress_str (Query.ip q)) /\
  Macro.expand (Macro.mk Macro.IP None true ".") q
  = Py.Ok (Py.fmt_d (Netaddr.octet (Netaddr.value (Query.ip q)) 3) ++ "." ++
           Py.fmt_d (Netaddr.octet (Netaddr.value (Query.ip q)) 2) ++ "." ++
           Py.fmt_d (Netaddr.octet (Netaddr.value (Query.ip q)) 1) ++ "." ++
           Py.fmt_d (Netaddr.octet (Netaddr.value (Query.ip q)) 0)).
Proof.
  intros Hv4.
  assert (Hraw : forall len r,
             Macro.raw (Macro.mk Macro.IP len r ".") q
             = Py.Ok (Some (String.concat "." (Reading.octets (Netaddr.value (Query.ip q)))))).
  { intros len' r'. unfold Macro.raw. cbn [Macro.type]. rewrite Hv4.
    unfold Netaddr.IPAddress_str. rewrite Hv4. reflexivity. }
  assert (Hlabels : Spec.labels "." (String.concat "."
                      (Reading.octets (Netaddr.value (Query.ip q))))
                    = Reading.octets (Netaddr.value (Query.ip q))).
  { apply labels_join; [reflexivity|].
    repeat constructor; apply free_of_dot, fmt_d_no_dot. }
  assert (Hall : forall len r,
             Macro.expand (Macro.mk Macro.IP len r ".") q
             = Py.Ok (String.concat "."
                 (let ls := Reading.octets (Netaddr.value (Query.ip q)) in
                  let ls := if r then rev ls else ls in
                  match Macro.length_true (Macro.mk Macro.IP len r ".") with
                  | Some n => Py.list_slice_from (- n) ls
                  | None => ls
                  end))).
  { intros len' r'. rewrite (Macro_expand_raw _ _ _ (Hraw len' r')).
    cbn [Macro.delimiter Macro.reverse]. now rewrite Hlabels. }
  split; [apply Hall|]. split.
  - rewrite Hall. unfold Netaddr.IPAddress_str. rewrite Hv4. reflexivity.
  - rewrite Hall. reflexivity.
Qed.

Lemma Macro_ip4_octets_witness :
  Netaddr.version (Query.ip Reading.v4_query) = Netaddr.V4 /\
  Macro.expand (Macro.mk Macro.IP None true ".") Reading.v4_query
    = Py.Ok "3.2.0.192".
Proof.
  split; [reflexivity|].
  exact (proj2 (proj2 (Macro_ip4_octets Reading.v4_query None true eq_refl))).
Defined.

Lemma hex_digit_plain (d : Z) :
  Netaddr.hex_digit d <> "."%char /\ Netaddr.hex_digit d <> ":"%char.
Proof.
  unfold Netaddr.hex_digit. generalize (Z.to_nat d) as k. intros k.
  do 16 (destruct k as [|k]; [split; discriminate|]).
  split; discriminate.
Qed.

Lemma fmt_04x_plain (w : Z) :
  Py.contains "." (Netaddr.fmt_04x w) = false /\
  Py.contains ":" (Netaddr.fmt_04x w) = false.
Proof.
  unfold Netaddr.fmt_04x. cbn [Py.contains].
  destruct (hex_digit_plain (Netaddr.nibble w 3)) as [A3 B3].
  destruct (hex_digit_plain (Netaddr.nibble w 2)) as [A2 B2].
  destruct (hex_digit_plain (Netaddr.nibble w 1)) as [A1 B1].
  destruct (hex_digit_plain (Netaddr.nibble w 0)) as [A0 B0].
  repeat match goal with
         | |- context [Ascii.eqb ?a ?b] =>
             destruct (Ascii.eqb_spec a b); [contradiction|]
         end.
  split; reflexivity.
Qed.

Lemma replace_char_absent (c : ascii) (new s : string) :
  Py.contains c s = false -> Py.replace (String c "") new s = s.
Proof.
  induction s as [|a s IH]; [reflexivity|]. simpl Py.contains.
  rewrite replace_char_cons. destruct (Ascii.eqb a c); [discriminate|].
  intros H. now rewrite IH.
Qed.

(** Removing the colons from words joined with colons leaves the words. *)
Lemma replace_colons (ws : list string) :
  Forall (fun w => Py.contains ":" w = false) ws ->
  Py.replace ":" "" (Py.join ":" ws) = String.concat "" ws.
Proof.
  induction ws as [|w ws IH]; intros Hws; [reflexivity|].
  inversion Hws as [|? ? Hw Hrest]; subst.
  destruct ws as [|w' ws].
  - simpl. now apply replace_char_absent.
  - change (Py.join ":" (w :: w' :: ws)) with (w ++ String ":" (Py.join ":" (w' :: ws))).
    rewrite replace_char_app, replace_char_cons, (IH Hrest).
    rewrite replace_char_absent by assumption. reflexivity.
Qed.

Lemma chars_free_of_dot (s : string) :
  Py.contains "." s = false -> Forall (Spec.free_of ".") (Py.chars s).
Proof.
  unfold Py.chars. induction s as [|a s IH]; simpl; [constructor|].
  destruct (Ascii.eqb_spec a ".") as [|Hne]; [discriminate|].
  intros H. constructor; [|now apply IH].
  apply free_of_dot. simpl. now destruct (Ascii.eqb_spec a ".").
Qed.

Lemma concat_no_dot (ws : list string) :
  Forall (fun w => Py.contains "." w = false) ws ->
  Py.contains "." (String.concat "" ws) = false.
Proof.
  induction ws as [|w ws IH]; intros Hws; [reflexivity|].
  inversion Hws as [|? ? Hw Hrest]; subst.
  rewrite concat_empty_cons, contains_app, Hw. now apply IH.
Qed.

(** X7. For an IPv6 address the labels the [i] macro works on are the 32
    hexadecimal digits of the address, most significant first, one digit
    to a label: with the delimiter ["."] the macro expands to those digits,
    in reverse order if [reverse] is set, the last [length] of them if a
    length is set, joined with dots. *)
Theorem Macro_ip6_nibbles (q : Query.t) (len : option Z) (r : bool) :
  Netaddr.version (Query.ip q) = Netaddr.V6 ->
  List.length (Reading.nibbles (Netaddr.value (Query.ip q))) = 32 /\
  Forall (fun l => String.length l = 1)
    (Reading.nibbles (Netaddr.value (Query.ip q))) /\
  Macro.expand (Macro.mk Macro.IP len r ".") q
  = Py.Ok (String.concat "."
      (let ls := Reading.nibbles (Netaddr.value (Query.ip q)) in
       let ls := if r then rev ls else ls in
       match Macro.length_true (Macro.mk Macro.IP len r ".") with
       | Some n => Py.list_slice_from (- n) ls
       | None => ls
       end)).
Proof.
  intros Hv6. set (n := Netaddr.value (Query.ip q)).
  assert (Hwords : Forall (fun w => Py.contains "." w = false /\ Py.contains ":" w = false)
                     (map Netaddr.fmt_04x (Netaddr.words n))).
  { apply Forall_forall. intros w Hw. apply in_map_iff in Hw.
    destruct Hw as [x [<- _]]. apply fmt_04x_plain. }
  split; [reflexivity|]. split.
  { unfold Reading.nibbles, Py.chars. apply Forall_forall.
    intros l Hl. apply in_map_iff in Hl. now destruct Hl as [a [<- _]]. }
  assert (Hraw : Macro.raw (Macro.mk Macro.IP len r ".") q
                 = Py.Ok (Some (String.concat "." (Reading.nibbles n)))).
  { unfold Macro.raw. cbn [Macro.type]. rewrite Hv6. fold n.
    unfold Netaddr.ipv6_verbose. rewrite replace_colons; [reflexivity|].
    eapply Forall_impl; [|exact Hwords]. now intros w [_ H]. }
  rewrite (Macro_expand_raw _ _ _ Hraw). cbn [Macro.delimiter Macro.reverse].
  assert (Hfree : Forall (Spec.free_of ".") (Reading.nibbles n)).
  { apply chars_free_of_dot, concat_no_dot.
    eapply Forall_impl; [|exact Hwords]. now intros w [H _]. }
  destruct (Reading.nibbles n) as [|l ls] eqn:E.
  - assert (Hlen : List.length (Reading.nibbles n) = 32) by reflexivity.
    rewrite E in Hlen. discriminate.
  - now rewrite (labels_join "." l ls eq_refl Hfree).
Qed.

Lemma Macro_ip6_nibbles_witness :
  Netaddr.version (Query.ip Reading.v6_query) = Netaddr.V6 /\
  Macro.expand (Macro.mk Macro.IP (Some 4%Z) true ".") Reading.v6_query
    = Py.Ok "1.0.0.2".
Proof.
  split; [reflexivity|].
  exact (proj2 (proj2 (Macro_ip6_nibbles Reading.v6_query (Some 4%Z) true eq_refl))).
Defined.

(** *** Construction and the type enum *)

(** X8. The lookup of a macro type by its letter inverts [value]: every
    member is found by its own letter, a letter that is found is the letter
    of the member found, and the lookup raises exactly for the texts that
    are no member's letter.  A macro built from the letter and the fields
    of a macro with a non-empty delimiter is that macro. *)
Theorem Macro_Type_lookup :
  (forall ty, Macro.Type_of (Macro.value ty) = Py.Ok ty) /\
  (forall tok ty, Macro.Type_of tok = Py.Ok ty -> Macro.value ty = tok) /\
  (forall tok, (exists e, Macro.Type_of tok = Py.Raise e)
               <-> (forall ty, Macro.value ty <> tok)) /\
  (forall m, Macro.delimiter m <> "" ->
     Macro.init (Macro.value (Macro.type m)) (Macro.length m) (Macro.reverse m)
       (Macro.delimiter m) = Py.Ok m).
Proof.
  split; [apply Type_of_value|]. split; [apply Type_of_known|]. split.
  - intros tok. split.
    + intros [e He] ty Hty. rewrite <- Hty, Type_of_value in He. discriminate.
    + intros Hno. exists Py.ValueError. now apply Type_of_unknown.
  - intros [ty len r delim] Hdel. unfold Macro.init. cbn [Macro.type Macro.value
      Macro.length Macro.reverse Macro.delimiter] in *.
    rewrite Type_of_value. simpl. destruct delim; [contradiction | reflexivity].
Qed.

(** ** Domain-specs *)

Lemma concat_empty_app (l1 l2 : list string) :
  String.concat "" (l1 ++ l2) = String.concat "" l1 ++ String.concat "" l2.
Proof.
  induction l1 as [|x l1 IH]; [reflexivity|].
  change ((x :: l1) ++ l2)%list with (x :: (l1 ++ l2))%list.
  now rewrite !concat_empty_cons, IH, append_assoc.
Qed.

Lemma Domain_str_fragments (d : Domain.t) :
  Domain.str d = String.concat "" (map (Spec.fragment_str Domain.escape) d).
Proof. unfold Domain.str. now rewrite str_loop. Qed.

Lemma expansion_app (d1 d2 : Domain.t) (q : Query.t) :
  Spec.expansion (d1 ++ d2)%list q
  = (a <- Spec.expansion d1 q ;; b <- Spec.expansion d2 q ;; Py.Ok (a ++ b)).
Proof.
  induction d1 as [|[s|m] d1 IH]; simpl.
  - now destruct (Spec.expansion d2 q).
  - rewrite IH. destruct (Spec.expansion d1 q) as [a|e]; simpl; [|reflexivity].
    destruct (Spec.expansion d2 q) as [b|e]; simpl; [|reflexivity].
    now rewrite append_assoc.
  - destruct (Macro.expand m q) as [piece|e]; simpl; [|reflexivity].
    rewrite IH. destruct (Spec.expansion d1 q) as [a|e]; simpl; [|reflexivity].
    destruct (Spec.expansion d2 q) as [b|e]; simpl; [|reflexivity].
    now rewrite append_assoc.
Qed.

(** X9. Rendering and concatenation go fragment by fragment: the literal
    rendering of two domain-specs put end to end is the two renderings put
    end to end, and so is their concatenation before the cap, which fails
    with the first part's exception if the first part fails and else with
    the second's. *)
Theorem Domain_append (d1 d2 : Domain.t) (q : Query.t) :
  Domain.str (d1 ++ d2)%list = Domain.str d1 ++ Domain.str d2 /\
  Domain.concat (d1 ++ d2)%list q
  = (a <- Domain.concat d1 q ;; b <- Domain.concat d2 q ;; Py.Ok (a ++ b)).
Proof.
  split.
  - now rewrite !Domain_str_fragments, map_app, concat_empty_app.
  - rewrite !concat_expansion. apply expansion_app.
Qed.

(** *** Escaping *)

Lemma escape_scan_reads_back (n : nat) (s : string) :
  String.length s <= n ->
  Py.contains " " (Spec.escape_scan s) = false /\
  Reading.unescape (Spec.escape_scan s) = s.
Proof.
  revert s. induction n as [|n IH]; intros [|a s] Hlen; try (split; reflexivity).
  - simpl in Hlen. lia.
  - simpl in Hlen. cbn [Spec.escape_scan].
    destruct (Ascii.eqb_spec a "%") as [->|Hne].
    + destruct s as [|b [|c s]].
      * split; reflexivity.
      * destruct (IH (String b "")) as [H1 H2]; [simpl in *; lia|].
        split; [exact H1|].
        change (Reading.unescape ("%%" ++ Spec.escape_scan (String b "")))
          with ("%" ++ Reading.unescape (Spec.escape_scan (String b ""))).
        now rewrite H2.
      * destruct (Ascii.eqb b "2" && Ascii.eqb c "0") eqn:E.
        -- apply andb_prop in E. destruct E as [Eb Ec].
           apply Ascii.eqb_eq in Eb, Ec. subst b c.
           destruct (IH s) as [H1 H2]; [simpl in *; lia|].
           split; [exact H1|].
           change (Reading.unescape ("%-" ++ Spec.escape_scan s))
             with ("%20" ++ Reading.unescape (Spec.escape_scan s)).
           now rewrite H2.
        -- destruct (IH (String b (String c s))) as [H1 H2]; [simpl in *; lia|].
           split; [exact H1|].
           change (Reading.unescape ("%%" ++ Spec.escape_scan (String b (String c s))))
             with ("%" ++ Reading.unescape (Spec.escape_scan (String b (String c s)))).
           now rewrite H2.
    + destruct (IH s) as [H1 H2]; [lia|].
      destruct (Ascii.eqb_spec a " ") as [->|Hsp].
      * split; [exact H1|].
        change (Reading.unescape ("%_" ++ Spec.escape_scan s))
          with (" " ++ Reading.unescape (Spec.escape_scan s)).
        now rewrite H2.
      * split.
        -- simpl. destruct (Ascii.eqb_spec a " "); [contradiction | exact H1].
        -- cbn [Reading.unescape].
           destruct (Ascii.eqb_spec a "%"); [contradiction|]. now rewrite H2.
Qed.

(** X10. The escaping of a text fragment in [Domain.__str__] leaves no
    space in the text, so that a rendered fragment never breaks a record
    into extra terms, and it loses nothing: reading ["%%"] as a percent
    sign, ["%_"] as a space and ["%-"] as ["%20"] gives the fragment back,
    and two fragments that render alike are the same. *)
Theorem Domain_escape_reads_back (s : string) :
  Py.contains " " (Domain.escape s) = false /\
  Reading.unescape (Domain.escape s) = s /\
  forall t, Domain.escape s = Domain.escape t -> s = t.
Proof.
  rewrite escape_scan_eq.
  destruct (escape_scan_reads_back (String.length s) s (le_n _)) as [H1 H2].
  split; [exact H1|]. split; [exact H2|].
  intros t Heq. rewrite escape_scan_eq in Heq.
  destruct (escape_scan_reads_back (String.length t) t (le_n _)) as [_ H3].
  rewrite <- H2, <- H3. now rewrite Heq.
Qed.

(** *** Expansion and the cap *)

Lemma strip_short (s : string) :
  String.length s <= 253 -> Domain.strip s = Py.Ok s.
Proof.
  funelim (Domain.strip s); intros Hlen; [reflexivity | lia | lia].
Qed.

(** X11. A concatenation of at most 253 characters is returned as it is, and
    what [Domain.expand] returns is stable under the cap: the loop applied
    to a returned text returns it again. *)
Theorem Domain_expand_within_cap (d : Domain.t) (q : Query.t) (full : string) :
  Domain.concat d q = Py.Ok full ->
  (String.length full <= 253 -> Domain.expand d q = Py.Ok full) /\
  (forall r, Domain.expand d q = Py.Ok r -> Domain.strip r = Py.Ok r).
Proof.
  intros Hfull. unfold Domain.expand. rewrite Hfull. simpl. split.
  - apply strip_short.
  - intros r Hr. apply strip_short. now destruct (strip_ok _ _ Hr).
Qed.

Lemma Domain_expand_within_cap_witness :
  Domain.concat [Domain.Text "_spf."; Domain.Placeholder (Macro.mk Macro.DOMAIN None false ".")]
    Sample.query = Py.Ok "_spf.email.example.com" /\
  String.length "_spf.email.example.com" <= 253 /\
  Domain.expand [Domain.Text "_spf."; Domain.Placeholder (Macro.mk Macro.DOMAIN None false ".")]
    Sample.query = Py.Ok "_spf.email.example.com".
Proof.
  assert (Hlen : String.length "_spf.email.example.com" <= 253) by (simpl; lia).
  split; [reflexivity|]. split; [exact Hlen|].
  exact (proj1 (Domain_expand_within_cap
                  [Domain.Text "_spf."; Domain.Placeholder (Macro.mk Macro.DOMAIN None false ".")]
                  Sample.query "_spf.email.example.com" eq_refl) Hlen).
Defined.

Lemma expansion_raise (d : Domain.t) (q : Query.t) (e : Py.exn) :
  Spec.expansion d q = Py.Raise e ->
  e = Py.TypeError /\
  exists m, In (Domain.Placeholder m) d /\ Reading.unhandled (Macro.type m).
Proof.
  induction d as [|[s|m] d IH]; simpl; [discriminate| |].
  - destruct (Spec.expansion d q) as [rest|e']; simpl; [discriminate|].
    intros H. injection H as <-. destruct (IH eq_refl) as [He [m [Hin Hm]]].
    split; [exact He|]. exists m. split; [now right | exact Hm].
  - destruct (Macro.expand m q) as [piece|e'] eqn:Em; simpl.
    + destruct (Spec.expansion d q) as [rest|e'']; simpl; [discriminate|].
      intros H. injection H as <-. destruct (IH eq_refl) as [He [m' [Hin Hm]]].
      split; [exact He|]. exists m'. split; [now right | exact Hm].
    + intros H. injection H as <-. split; [now apply (Macro_expand_error m q)|].
      exists m. split; [now left|].
      destruct (Macro_raw_ok m q) as [raw [Hraw Hnone]]. apply Hnone.
      unfold Macro.expand in Em. rewrite Hraw in Em.
      destruct raw; [discriminate | reflexivity].
Qed.

(** X12. [Domain.expand] raises in two cases only.  Either it is the
    [TypeError] of a macro of type [p] or [h] among the fragments; or all
    fragments expanded and it is the [ValueError] of [index]: the
    concatenation ends in a label of more than 253 characters, or is one. *)
Theorem Domain_expand_raises (d : Domain.t) (q : Query.t) (e : Py.exn) :
  Domain.expand d q = Py.Raise e ->
  (e = Py.TypeError /\
   exists m, In (Domain.Placeholder m) d /\ Reading.unhandled (Macro.type m)) \/
  (e = Py.ValueError /\
   exists full t,
     Domain.concat d q = Py.Ok full /\ Spec.label_suffix t full /\
     253 < String.length t /\ Py.contains "." t = false).
Proof.
  unfold Domain.expand. rewrite concat_expansion.
  destruct (Spec.expansion d q) as [full|e'] eqn:E; simpl.
  - intros Hstrip. right. apply strip_raise in Hstrip.
    destruct Hstrip as [He [t [Hto [Hlen Hdot]]]]. split; [exact He|].
    exists full, t. repeat split; try assumption. now apply strips_to_suffix.
  - intros H. injection H as <-. left. now apply (expansion_raise d q).
Qed.

Lemma Domain_expand_raises_witness :
  Domain.expand Sample.helo_domain Sample.query = Py.Raise Py.TypeError /\
  ((Py.TypeError = Py.TypeError /\
    exists m, In (Domain.Placeholder m) Sample.helo_domain /\
              Reading.unhandled (Macro.type m)) \/
   (Py.TypeError = Py.ValueError /\
    exists full t,
      Domain.concat Sample.helo_domain Sample.query = Py.Ok full /\
      Spec.label_suffix t full /\
      253 < String.length t /\ Py.contains "." t = false)).
Proof.
  assert (H : Domain.expand Sample.helo_domain Sample.query = Py.Raise Py.TypeError)
    by reflexivity.
  split; [exact H|].
  exact (Domain_expand_raises Sample.helo_domain Sample.query Py.TypeError H).
Defined.

Lemma contains_first (c : ascii) (s : string) :
  Py.contains c s = true ->
  exists l rest, s = l ++ String c rest /\ Py.contains c l = false.
Proof.
  induction s as [|a s IH]; simpl; [discriminate|].
  destruct (Ascii.eqb_spec a c) as [->|Hne].
  - intros _. exists "", s. now split.
  - intros H. destruct (IH H) as [l [rest [-> Hl]]].
    exists (String a l), rest. split; [reflexivity|].
    simpl. now destruct (Ascii.eqb_spec a c).
Qed.

Lemma strip_long_label (s : string) :
  forall pre t,
    s = pre ++ t -> (pre = "" \/ exists p, pre = p ++ ".") ->
    Py.contains "." t = false -> 253 < String.length t ->
    Domain.strip s = Py.Raise Py.ValueError.
Proof.
  funelim (Domain.strip s); intros pre t Hs Hpre Hdot Hlen.
  - pose proof l as Hle. rewrite Hs, append_length in Hle. lia.
  - match goal with
    | Hi : Py.index _ _ = Some _ |- _ =>
        destruct (index_split _ _ _ Hi) as [l' [Hl' [_ Hsplit]]]
    end.
    destruct Hpre as [->|[p ->]].
    + simpl in Hs. subst result.
      assert (Hc : Py.contains "." t = true)
        by (rewrite Hsplit, contains_app; simpl; apply orb_true_r).
      rewrite Hdot in Hc. discriminate.
    + rewrite append_assoc in Hs.
      destruct (Py.contains "." p) eqn:Hp.
      * destruct (contains_first _ _ Hp) as [l2 [p2 [-> Hl2]]].
        rewrite append_assoc in Hs. cbn [append] in Hs.
        rewrite Hs in Hsplit at 1.
        destruct (first_dot_unique _ _ _ _ Hl2 Hl' Hsplit) as [_ Hrest].
        match goal with
        | IH : forall pre t, _ = _ -> _ |- _ =>
            apply (IH (p2 ++ ".") t)
        end; try assumption.
        -- rewrite <- Hrest. now rewrite append_assoc.
        -- right. now exists p2.
      * rewrite Hs in Hsplit at 1.
        destruct (first_dot_unique _ _ _ _ Hp Hl' Hsplit) as [_ Hrest].
        match goal with
        | IH : forall pre t, _ = _ -> _ |- _ =>
            apply (IH "" t)
        end; try assumption.
        -- now rewrite <- Hrest.
        -- now left.
  - reflexivity.
Qed.

(** X13. Stripping leading labels cannot help when the last label is
    itself over the cap: if the concatenation ends in a label of more than
    253 characters, or is one, [Domain.expand] raises [ValueError] and returns
    nothing, however many labels go before. *)
Theorem Domain_expand_long_label (d : Domain.t) (q : Query.t) (pre t : string) :
  Domain.concat d q = Py.Ok (pre ++ t) ->
  pre = "" \/ (exists p, pre = p ++ ".") ->
  Py.contains "." t = false ->
  253 < String.length t ->
  Domain.expand d q = Py.Raise Py.ValueError.
Proof.
  intros Hfull Hpre Hdot Hlen. unfold Domain.expand. rewrite Hfull. simpl.
  now apply (strip_long_label (pre ++ t) pre t).
Qed.

Lemma Domain_expand_long_label_witness :
  Domain.concat Reading.long_label_domain Sample.query
    = Py.Ok ("a." ++ Reading.label300) /\
  ("a." = "" \/ exists p, "a." = p ++ ".") /\
  Py.contains "." Reading.label300 = false /\
  253 < String.length Reading.label300 /\
  Domain.expand Reading.long_label_domain Sample.query = Py.Raise Py.ValueError.
Proof.
  assert (Hpre : "a." = "" \/ exists p, "a." = p ++ ".")
    by (right; exists "a"; reflexivity).
  assert (Hlen : 253 < String.length Reading.label300)
    by (vm_compute; repeat constructor).
  split; [reflexivity|]. split; [exact Hpre|]. split; [reflexivity|].
  split; [exact Hlen|].
  exact (Domain_expand_long_label Reading.long_label_domain Sample.query
           "a." Reading.label300 eq_refl Hpre eq_refl Hlen).
Defined.

(** *** Reversal and length together *)

(** X14. A reversed macro with a positive length [n] keeps the first [n]
    labels of the raw value and writes them from last to first. *)
Theorem Macro_reverse_keeps_first (ty : Macro.Type_) (n : positive)
    (delim : string) (q : Query.t) (raw : string) :
  Macro.raw (Macro.mk ty (Some (Z.pos n)) true delim) q = Py.Ok (Some raw) ->
  Macro.expand (Macro.mk ty (Some (Z.pos n)) true delim) q
  = Py.Ok (String.concat "." (rev (firstn (Pos.to_nat n) (Spec.labels delim raw)))).
Proof.
  intros Hraw. rewrite (Macro_expand_raw _ _ _ Hraw). cbv zeta.
  unfold Macro.length_true. cbn [Macro.length Macro.reverse Macro.delimiter].
  change (Z.pos n =? 0)%Z with false. cbv iota.
  change (- Z.pos n)%Z with (Z.neg n).
  rewrite list_slice_from_last. unfold Spec.keep_last.
  now rewrite rev_involutive.
Qed.

Lemma Macro_reverse_keeps_first_witness :
  Macro.raw (Macro.mk Macro.DOMAIN (Some 2%Z) true ".") Sample.query
    = Py.Ok (Some "email.example.com") /\
  Macro.expand (Macro.mk Macro.DOMAIN (Some 2%Z) true ".") Sample.query
    = Py.Ok "example.email".
Proof.
  split; [reflexivity|].
  exact (Macro_reverse_keeps_first Macro.DOMAIN 2 "." Sample.query
           "email.example.com" eq_refl).
Defined.

(** ** Directives and records *)




Lemma SPF_str_spaced (self : SPF.t) :
  SPF.str self
  = "v=spf1" ++ fold_right (fun t acc => " " ++ SPF.term_str t ++ acc) "" self.
Proof.
  destruct self as [|x xs]; [reflexivity|].
  unfold SPF.str. rewrite <- join_spaced. reflexivity.
Qed.

Lemma spaced_app (f : SPF.term -> string) (xs ys : list SPF.term) :
  fold_right (fun t acc => " " ++ f t ++ acc) "" (xs ++ ys)%list
  = fold_right (fun t acc => " " ++ f t ++ acc) "" xs
      ++ fold_right (fun t acc => " " ++ f t ++ acc) "" ys.
Proof.
  induction xs as [|x xs IH]; [reflexivity|].
  cbn [fold_right app]. rewrite IH. cbn [append]. f_equal.
  now rewrite append_assoc.
Qed.

(** X16. Records render term by term: the rendering of a record with
    further terms at its end is the rendering of the record followed by
    each further term behind one space.  Adding a term to the end of a
    record adds one space and the term's rendering to its text. *)
Theorem SPF_str_append (xs ys : SPF.t) :
  SPF.str (xs ++ ys)%list
  = SPF.str xs ++ fold_right (fun t acc => " " ++ SPF.term_str t ++ acc) "" ys /\
  forall x, SPF.str (xs ++ [x])%list = SPF.str xs ++ " " ++ SPF.term_str x.
Proof.
  assert (H : forall zs, SPF.str (xs ++ zs)%list
              = SPF.str xs
                  ++ fold_right (fun t acc => " " ++ SPF.term_str t ++ acc) "" zs)
    by (intros zs; now rewrite !SPF_str_spaced, spaced_app, append_assoc).
  split; [apply H|]. intros x. rewrite H. simpl. now rewrite append_empty_r.
Qed.

(** ** Networks *)

Lemma cidr_idempotent (n : Netaddr.IPNetwork) :
  Netaddr.cidr (Netaddr.cidr n) = Netaddr.cidr n.
Proof.
  unfold Netaddr.cidr, Netaddr.netmask, Netaddr.hostmask. simpl. f_equal.
  now rewrite <- Z.land_assoc, Z.land_diag.
Qed.

(** X17. The host bits of the address an [IPNetwork] was built from never
    show: the network it answers with is its own CIDR base, and two
    networks of one version and prefix length whose addresses agree above
    the host bits have the same network and the same rendering. *)
Theorem IPNetwork_host_bits (v : Netaddr.ipversion) (n n' p : Z)
    (net net' : IPNetwork.t) :
  IPNetwork.init v n p = Py.Ok net ->
  IPNetwork.init v n' p = Py.Ok net' ->
  Z.shiftr n (Netaddr.width v - p) = Z.shiftr n' (Netaddr.width v - p) ->
  IPNetwork.network (IPNetwork.mk (IPNetwork.network net)) = IPNetwork.network net /\
  IPNetwork.network net = IPNetwork.network net' /\
  IPNetwork.str net = IPNetwork.str net'.
Proof.
  intros Hnet Hnet' Hhigh.
  split; [apply cidr_idempotent|].
  assert (Heq : IPNetwork.network net = IPNetwork.network net').
  { rewrite (IPNetwork_network_base _ _ _ _ Hnet).
    rewrite (IPNetwork_network_base _ _ _ _ Hnet'). now rewrite Hhigh. }
  split; [exact Heq|].
  unfold IPNetwork.str, IPNetwork.version, IPNetwork.address, IPNetwork.prefix_length.
  now rewrite Heq.
Qed.

Lemma IPNetwork_host_bits_witness :
  IPNetwork.init Netaddr.V4 (Netaddr.ipv4 10 1 2 3) 24
    = Py.Ok (IPNetwork.mk (Netaddr.mkIPNetwork Netaddr.V4 (Netaddr.ipv4 10 1 2 3) 24)) /\
  IPNetwork.init Netaddr.V4 (Netaddr.ipv4 10 1 2 200) 24
    = Py.Ok (IPNetwork.mk (Netaddr.mkIPNetwork Netaddr.V4 (Netaddr.ipv4 10 1 2 200) 24)) /\
  Z.shiftr (Netaddr.ipv4 10 1 2 3) (Netaddr.width Netaddr.V4 - 24)
    = Z.shiftr (Netaddr.ipv4 10 1 2 200) (Netaddr.width Netaddr.V4 - 24) /\
  IPNetwork.str (IPNetwork.mk (Netaddr.mkIPNetwork Netaddr.V4 (Netaddr.ipv4 10 1 2 3) 24))
    = IPNetwork.str (IPNetwork.mk (Netaddr.mkIPNetwork Netaddr.V4 (Netaddr.ipv4 10 1 2 200) 24)).
Proof.
  split; [reflexivity|]. split; [reflexivity|]. split; [reflexivity|].
  exact (proj2 (proj2 (IPNetwork_host_bits Netaddr.V4 (Netaddr.ipv4 10 1 2 3)
                         (Netaddr.ipv4 10 1 2 200) 24 _ _ eq_refl eq_refl eq_refl))).
Defined.

(** ** Spaces in rendered texts *)

Lemma uint_no_space (u : Decimal.uint) :
  Py.contains " " (NilEmpty.string_of_uint u) = false.
Proof. induction u; simpl; assumption || reflexivity. Qed.

Lemma fmt_d_no_space (n : Z) : Py.contains " " (Py.fmt_d n) = false.
Proof.
  unfold Py.fmt_d, NilZero.string_of_int, NilZero.string_of_uint.
  destruct (Z.to_int n) as [u|u]; destruct u; simpl;
    try reflexivity; apply uint_no_space.
Qed.

Lemma Macro_str_no_space (m : Macro.t) :
  Py.contains " " (Macro.delimiter m) = false ->
  Py.contains " " (Macro.str m) = false.
Proof.
  intros Hdel. unfold Macro.str.
  assert (Hval : Py.contains " " (Macro.value (Macro.type m)) = false)
    by (destruct (Macro.type m); reflexivity).
  destruct (Macro.length_true m) as [n|]; destruct (Macro.reverse m);
    destruct (negb (Macro.delimiter m =? "."));
    rewrite ?contains_app, ?Hval, ?fmt_d_no_space, ?Hdel; reflexivity.
Qed.

(** X18. The literal rendering of a domain-spec holds no space, whatever
    its text fragments, as long as no macro in it has a space in its
    delimiter: the spaces of the texts are all written ["%_"]. *)
Theorem Domain_str_no_space (d : Domain.t) :
  Forall Reading.spaceless d ->
  Py.contains " " (Domain.str d) = false.
Proof.
  intros Hd. rewrite Domain_str_fragments.
  induction Hd as [|i d Hi _ IH]; [reflexivity|].
  cbn [map]. rewrite concat_empty_cons, contains_app, IH, orb_false_r.
  destruct i as [s|m]; simpl.
  - rewrite escape_scan_eq.
    now destruct (escape_scan_reads_back (String.length s) s (le_n _)).
  - now apply Macro_str_no_space.
Qed.

Lemma Domain_str_no_space_witness :
  Forall Reading.spaceless
    [Domain.Text "a b%20c"; Domain.Placeholder Sample.macro_d2r] /\
  Py.contains " "
    (Domain.str [Domain.Text "a b%20c"; Domain.Placeholder Sample.macro_d2r]) = false.
Proof.
  assert (H : Forall Reading.spaceless
                [Domain.Text "a b%20c"; Domain.Placeholder Sample.macro_d2r])
    by (repeat constructor).
  split; [exact H|].
  exact (Domain_str_no_space _ H).
Defined.

Lemma split_join (c : ascii) (l : string) (ls : list string) :
  Forall (fun x => Py.contains c x = false) (l :: ls) ->
  Py.split c (String.concat (String c "") (l :: ls)) = l :: ls.
Proof.
  unfold Py.split. revert l. induction ls as [|l' ls IH]; intros l Hall.
  - inversion Hall as [|? ? Hl _]; subst. simpl.
    now rewrite split_from_none by assumption.
  - inversion Hall as [|? ? Hl Hrest]; subst.
    change (String.concat (String c "") (l :: l' :: ls))
      with (l ++ String c (String.concat (String c "") (l' :: ls))).
    rewrite split_from_first by assumption. cbn [append].
    now rewrite (IH l' Hrest).
Qed.

(** X19. A record can be read back from its text: if no term's rendering
    holds a space, splitting the rendering of the record at its spaces
    gives ["v=spf1"] and then the renderings of the terms, one piece for
    each term, in order. *)
Theorem SPF_str_split (self : SPF.t) :
  Forall (fun t => Py.contains " " (SPF.term_str t) = false) self ->
  Py.split " " (SPF.str self) = "v=spf1" :: map SPF.term_str self.
Proof.
  intros Hterms.
  assert (Hjoin : SPF.str self
                  = String.concat " " ("v=spf1" :: map SPF.term_str self))
    by (destruct self; reflexivity).
  rewrite Hjoin. apply split_join. constructor; [reflexivity|].
  now apply Forall_map.
Qed.

Lemma SPF_str_split_witness :
  Forall (fun t => Py.contains " " (SPF.term_str t) = false) Reading.record /\
  Py.split " " (SPF.str Reading.record)
    = ["v=spf1"; "include:_spf.example.com"; "-all"].
Proof.
  assert (H : Forall (fun t => Py.contains " " (SPF.term_str t) = false)
                Reading.record)
    by (repeat constructor).
  split; [exact H|].
  exact (SPF_str_split Reading.record H).
Defined.
